(** * MathInspector console: a model of [mathinspector/console/console.py]

    The console binds a read-eval-print loop to a Tk text widget.  The
    development embeds the constructor of [Console], its methods
    [setitem], [delitem], [synclocals], [eval], [push], [write],
    [showtraceback], [clear] and [_click], and the helper class [Clear],
    as state-passing functions over a record that holds the attributes
    the methods read and write, the process-wide interpreter state, and
    a trace of the calls made into the widget and into components that
    live outside the file (the prompt, the code parser, the menu, the
    editor launcher).  *)

From Stdlib Require Import Ascii.
From stdpp Require Import gmap strings list.

Set Default Proof Using "Type".

(** ** Python strings *)

Module PyStr.

Definition quote : ascii := Ascii.ascii_of_nat 34.
Definition newline : ascii := Ascii.ascii_of_nat 10.
Definition tab : ascii := Ascii.ascii_of_nat 9.
Definition bell : ascii := Ascii.ascii_of_nat 7.

Definition chars (s : string) : list ascii := String.list_ascii_of_string s.
Definition of_chars (l : list ascii) : string := String.string_of_list_ascii l.

(** [str.isspace] on the ASCII range: TAB, LF, VT, FF, CR, the four
    separators FS, GS, RS, US, and the space. *)
Definition isspace (c : ascii) : bool :=
  let n := Ascii.nat_of_ascii c in
  ((9 <=? n) && (n <=? 13)) || ((28 <=? n) && (n <=? 32)).

Definition isdigit (c : ascii) : bool :=
  let n := Ascii.nat_of_ascii c in (48 <=? n) && (n <=? 57).

Fixpoint lstrip_chars (l : list ascii) : list ascii :=
  match l with
  | c :: l' => if isspace c then lstrip_chars l' else l
  | [] => []
  end.

Definition rstrip_chars (l : list ascii) : list ascii :=
  rev (lstrip_chars (rev l)).

(** [s.rstrip()] and [s.strip()] *)
Definition rstrip (s : string) : string := of_chars (rstrip_chars (chars s)).
Definition strip (s : string) : string :=
  of_chars (rstrip_chars (lstrip_chars (chars s))).

(** [''.join(l)] *)
Definition join (l : list string) : string := String.concat EmptyString l.

(** [s[:n]] for a non-negative [n] *)
Definition slice_to (n : nat) (s : string) : string := String.substring 0 n s.

(** [s[1:-1]]: empty when [s] has fewer than three characters *)
Definition slice_1_m1 (s : string) : string :=
  String.substring 1 (String.length s - 2) s.

(** Truth value of a string: non-empty. *)
Definition truthy (s : string) : bool :=
  match s with EmptyString => false | _ => true end.

(** [list(s)] : the one-character strings of [s] *)
Definition explode (s : string) : list string :=
  map (fun c => String c EmptyString) (chars s).

(** Words of a string, separated by white space. *)
Fixpoint words_aux (cur : list ascii) (l : list ascii) : list (list ascii) :=
  match l with
  | [] => match cur with [] => [] | _ => [rev cur] end
  | c :: l' =>
      if isspace c
      then match cur with [] => words_aux [] l' | _ => rev cur :: words_aux [] l' end
      else words_aux (c :: cur) l'
  end.

Definition words (s : string) : list string :=
  map of_chars (words_aux [] (chars s)).

End PyStr.

(** ** Python objects handed to the console *)

(** The values the methods inspect: [None], modules ([inspect.ismodule]),
    exception instances ([isinstance(r, Exception)]) and everything else.
    Every object but [None] carries the text [str()] gives for it; [str()]
    of these objects has no effect on the console (the [Clear] helper,
    whose [__repr__] has one, is modelled apart). *)
Inductive pyobj :=
| PyNone
| PyModule (shown : string)
| PyException (shown : string)
| PyObject (shown : string).

#[global] Instance pyobj_eq_dec : EqDecision pyobj.
Proof. solve_decision. Defined.

Definition py_str (r : pyobj) : string :=
  match r with
  | PyNone => "None"
  | PyModule s | PyException s | PyObject s => s
  end.

Definition is_none (r : pyobj) : bool :=
  match r with PyNone => true | _ => false end.

Definition ismodule (r : pyobj) : bool :=
  match r with PyModule _ => true | _ => false end.

Definition is_exception (r : pyobj) : bool :=
  match r with PyException _ => true | _ => false end.

(** ** Tags

    [write] receives [tags] either as a tuple of tag names (the default
    [()]) or as a plain string ([showtraceback] passes [tags="red"]).
    Unpacking a string ([*tags], [list(tags)]) yields its characters. *)
Inductive pytags :=
| TagTuple (names : list string)
| TagStr (s : string).

Definition tag_elems (t : pytags) : list string :=
  match t with
  | TagTuple l => l
  | TagStr s => PyStr.explode s
  end.

(** What the text widget makes of a [tags] argument: the elements of a
    tuple, the white-space separated words of a string (a Tcl list). *)
Definition tk_tag_names (t : pytags) : list string :=
  match t with
  | TagTuple l => l
  | TagStr s => PyStr.words s
  end.

(** ** Regular expressions of the module *)

Module Re.
Import PyStr.

Inductive pattern := RE_FILEPATH | RE_INPUT | RE_LINE | RE_IN.

Definition no_newline (l : list ascii) : bool :=
  forallb (fun c => negb (Ascii.eqb c newline)) l.

Fixpoint strip_prefix (p l : list ascii) : option (list ascii) :=
  match p, l with
  | [], _ => Some l
  | a :: p', b :: l' => if Ascii.eqb a b then strip_prefix p' l' else None
  | _ :: _, [] => None
  end.

Definition strip_suffix (p l : list ascii) : option (list ascii) :=
  match strip_prefix (rev p) (rev l) with
  | Some r => Some (rev r)
  | None => None
  end.

Definition starts_with (c : ascii) (l : list ascii) : bool :=
  match l with a :: _ => Ascii.eqb a c | [] => false end.

Definition file_open : list ascii := chars "File " ++ [quote].

(** [RE_TRACEBACK], the literal [Traceback (most recent call last)]
    anchored at the start, is used with [re.match]: the text begins
    with the literal. *)
Definition match_traceback (s : string) : bool :=
  String.prefix "Traceback (most recent call last)" s.

Fixpoint skip_digits (l : list ascii) : list ascii :=
  match l with
  | c :: l' => if isdigit c then skip_digits l' else l
  | [] => []
  end.

(** The whole of [l] is a match of the pattern ([.] is any character
    but a newline, [Q] stands for the double quote):
    - [RE_FILEPATH]: [File Q], not followed by [<], then [.*], then [Q];
    - [RE_INPUT]: [File Q<], then [.*], then [>Q];
    - [RE_LINE]: [line ] and any number of digits;
    - [RE_IN]: [line ], any number of digits, [, in ], then [.*]. *)
Definition fullmatch (p : pattern) (l : list ascii) : bool :=
  match p with
  | RE_FILEPATH =>
      match strip_prefix file_open l with
      | Some rest =>
          match strip_suffix [quote] rest with
          | Some q => negb (starts_with "<"%char rest) && no_newline q
          | None => false
          end
      | None => false
      end
  | RE_INPUT =>
      match strip_prefix (file_open ++ chars "<") l with
      | Some rest =>
          match strip_suffix (chars ">" ++ [quote]) rest with
          | Some q => no_newline q
          | None => false
          end
      | None => false
      end
  | RE_LINE =>
      match strip_prefix (chars "line ") l with
      | Some rest => match skip_digits rest with [] => true | _ => false end
      | None => false
      end
  | RE_IN =>
      match strip_prefix (chars "line ") l with
      | Some rest =>
          match strip_prefix (chars ", in ") (skip_digits rest) with
          | Some q => no_newline q
          | None => false
          end
      | None => false
      end
  end.

End Re.

(** ** The text widget

    Modelled from the spec: the class [Text] of the [widget] module, the
    base class of the console, is not under src/.  It is the text widget
    the console is bound to, taken with the behaviour of the Tk text
    widget it wraps: a sequence of characters, each with the set of tags
    put on it, and the [insert] mark.  Tk keeps one final newline after
    the characters; the index [end] lies after it, and text inserted at
    [end] goes before it. *)

Record cell := Cell { ch : ascii; ctags : list string }.

Inductive tkindex :=
| Ix_start            (* the index 1.0 *)
| Ix_end
| Ix_insert
| Ix_at (n : nat).    (* a character offset from 1.0 *)

(** ** Process-wide interpreter state *)

Inductive stream := OsStdout | OsStderr.

Inductive hook := HookDefault | HookWrite | HookShowtraceback.

Inductive builtin :=
| BNative (name : string)
| BWrite
| BHelp
| BClear
| BText (s : string)
| BLicense.

Inductive callback :=
| CbMotion (key : string)
| CbLeave (key : string)
| CbClick (key : string).

(** A traceback is a non-empty chain of frames; [tb_next] drops the first. *)
Record traceback := Tb { tb_frame : string; tb_rest : list string }.

Definition tb_next (tb : traceback) : option traceback :=
  match tb_rest tb with
  | [] => None
  | f :: r => Some (Tb f r)
  end.

(** The triple [sys.exc_info()] returns. *)
Record exc_info := ExcInfo {
  ei_type : option string;
  ei_value : option pyobj;
  ei_tb : option traceback
}.

Record Process := {
  sys_displayhook : hook;
  sys_excepthook : hook;
  sys_stdout : stream;
  sys_stderr : stream;
  sys_last : option exc_info;        (* sys.last_type, last_value, last_traceback *)
  builtins : gmap string builtin;
  os_stdout : string;                (* what reached the process's standard output *)
  os_stderr : string
}.

(** ** The console object and the host application's registries *)

Record Console := {
  buffer : list string;
  hover_range : option (nat * nat);
  locals : gmap string pyobj;        (* self.locals.store *)
  app_objects : gmap string pyobj;   (* self.app.objects.store *)
  app_modules : gmap string pyobj;   (* self.app.modules.store *)
  text : list cell;
  mark_insert : nat;
  tag_bindings : list (string * string * callback)
}.

(** Calls that leave the console object, in the order they are made. *)
Inductive event :=
| EvInsert (i : tkindex) (chars : string) (tags : option pytags) (syntax_highlight : bool)
| EvDelete (i j : tkindex)
| EvSee (i : tkindex)
| EvHighlight (p : Re.pattern) (tag : string) (idx : nat)
| EvPromptCall
| EvPromptMove
| EvPromptSetOnBottom (b : bool)
| EvHistoryExtend (s : string)
| EvPreprocess (source : string)
| EvParse (source : string)
| EvRunsource (source filename : string) (ns : gmap string pyobj)
| EvEval (source : string) (ns : gmap string pyobj)
| EvBuiltinPrint (s : string)
| EvSetView (name : string) (visible : bool)
| EvOpenEditor (path : string).

Record World := { con : Console; proc : Process; trace : list event }.

Definition set_buffer (b : list string) (c : Console) : Console :=
  {| buffer := b; hover_range := hover_range c; locals := locals c;
     app_objects := app_objects c; app_modules := app_modules c;
     text := text c; mark_insert := mark_insert c; tag_bindings := tag_bindings c |}.

Definition set_locals (m : gmap string pyobj) (c : Console) : Console :=
  {| buffer := buffer c; hover_range := hover_range c; locals := m;
     app_objects := app_objects c; app_modules := app_modules c;
     text := text c; mark_insert := mark_insert c; tag_bindings := tag_bindings c |}.

Definition set_app_objects (m : gmap string pyobj) (c : Console) : Console :=
  {| buffer := buffer c; hover_range := hover_range c; locals := locals c;
     app_objects := m; app_modules := app_modules c;
     text := text c; mark_insert := mark_insert c; tag_bindings := tag_bindings c |}.

Definition set_app_modules (m : gmap string pyobj) (c : Console) : Console :=
  {| buffer := buffer c; hover_range := hover_range c; locals := locals c;
     app_objects := app_objects c; app_modules := m;
     text := text c; mark_insert := mark_insert c; tag_bindings := tag_bindings c |}.

Definition set_text (t : list cell) (mark : nat) (c : Console) : Console :=
  {| buffer := buffer c; hover_range := hover_range c; locals := locals c;
     app_objects := app_objects c; app_modules := app_modules c;
     text := t; mark_insert := mark; tag_bindings := tag_bindings c |}.

Definition set_hover_range (r : option (nat * nat)) (c : Console) : Console :=
  {| buffer := buffer c; hover_range := r; locals := locals c;
     app_objects := app_objects c; app_modules := app_modules c;
     text := text c; mark_insert := mark_insert c; tag_bindings := tag_bindings c |}.

(** ** State passing *)

Definition M (A : Type) : Type := World -> A * World.

Definition ret {A} (a : A) : M A := fun w => (a, w).

Definition bind {A B} (m : M A) (k : A -> M B) : M B :=
  fun w => let (a, w') := m w in k a w'.

Declare Scope console_scope.
Delimit Scope console_scope with console.
Notation "x <- m ;; k" := (bind m (fun x => k))
  (at level 100, m at next level, right associativity) : console_scope.
Notation "m ;; k" := (bind m (fun _ => k))
  (at level 100, right associativity) : console_scope.
Open Scope console_scope.

Definition gets {A} (f : Console -> A) : M A := fun w => (f (con w), w).

Definition modify (f : Console -> Console) : M unit :=
  fun w => (tt, {| con := f (con w); proc := proc w; trace := trace w |}).

Definition modify_proc (f : Process -> Process) : M unit :=
  fun w => (tt, {| con := con w; proc := f (proc w); trace := trace w |}).

Definition emit (e : event) : M unit :=
  fun w => (tt, {| con := con w; proc := proc w; trace := trace w ++ [e] |}).

Definition when (b : bool) (m : M unit) : M unit := if b then m else ret tt.

(** The state a method leaves, and the calls it added to the trace. *)
Definition exec {A} (m : M A) (w : World) : World := snd (m w).
Definition result {A} (m : M A) (w : World) : A := fst (m w).
Definition calls {A} (m : M A) (w : World) : list event :=
  drop (length (trace w)) (trace (exec m w)).

(** ** Widget operations *)

Module Tk.
Import PyStr.

(** The characters of the widget, with Tk's final newline. *)
Definition all_chars (c : Console) : list ascii := map ch (text c) ++ [newline].

Definition resolve (c : Console) (i : tkindex) : nat :=
  match i with
  | Ix_start => 0
  | Ix_end => S (length (text c))
  | Ix_insert => mark_insert c
  | Ix_at n => n `min` S (length (text c))
  end.

Definition sublist {A} (i j : nat) (l : list A) : list A := take (j - i) (drop i l).

Definition tag_names (tags : option pytags) : list string :=
  match tags with Some t => tk_tag_names t | None => [] end.

Definition insert_cells (p : nat) (cells : list cell) (c : Console) : Console :=
  let p := p `min` length (text c) in
  set_text (take p (text c) ++ cells ++ drop p (text c))
           (if p <=? mark_insert c then mark_insert c + length cells else mark_insert c)
           c.

(** [self.insert(index, chars, tags, syntax_highlight=...)] *)
Definition insert (i : tkindex) (s : string) (tags : option pytags)
    (syntax_highlight : bool) : M unit :=
  p <- gets (fun c => resolve c i) ;;
  modify (insert_cells p (map (fun a => Cell a (tag_names tags)) (chars s))) ;;
  emit (EvInsert i s tags syntax_highlight).

Definition delete_range (p q : nat) (c : Console) : Console :=
  let q := q `min` length (text c) in
  if p <? q then
    set_text (take p (text c) ++ drop q (text c))
             (if mark_insert c <=? p then mark_insert c
              else if q <=? mark_insert c then mark_insert c - (q - p)
              else p)
             c
  else c.

(** [self.delete(i, j)] *)
Definition delete (i j : tkindex) : M unit :=
  p <- gets (fun c => resolve c i) ;;
  q <- gets (fun c => resolve c j) ;;
  modify (delete_range p q) ;;
  emit (EvDelete i j).

(** [self.get(i, j)] *)
Definition get (i j : tkindex) : M string :=
  gets (fun c => of_chars (sublist (resolve c i) (resolve c j) (all_chars c))).

(** [self.index("insert")] *)
Definition index_insert : M nat := gets mark_insert.

(** [self.see(i)] *)
Definition see (i : tkindex) : M unit := emit (EvSee i).

End Tk.

(** Modelled from the spec: [Text.highlight] belongs to the [widget]
    module, which is not under src/.  Following the specification's words
    (the file links of a traceback are the parts of the written text that
    match the file pattern), [highlight p tag idx] puts [tag] on every
    character, at or after [idx], of every stretch of the text that
    matches [p]; tags already on a character stay. *)
Definition covered (p : Re.pattern) (idx : nat) (l : list ascii) (k : nat) : bool :=
  existsb (fun i =>
    existsb (fun j => Re.fullmatch p (Tk.sublist i j l))
            (seq (S k) (length l - k)))
    (seq idx (S k - idx)).

Definition add_tag (tag : string) (c : cell) : cell :=
  Cell (ch c) (if bool_decide (tag ∈ ctags c) then ctags c else ctags c ++ [tag]).

Definition highlight_cells (p : Re.pattern) (tag : string) (idx : nat)
    (t : list cell) : list cell :=
  imap (fun k c => if covered p idx (map ch t) k then add_tag tag c else c) t.

Definition highlight (p : Re.pattern) (tag : string) (idx : nat) : M unit :=
  modify (fun c => set_text (highlight_cells p tag idx (text c)) (mark_insert c) c) ;;
  emit (EvHighlight p tag idx).

(** ** Components the console calls into

    Modelled from the spec: the prompt ([.prompt]), the code parser
    ([.codeparser]), the saved interpreter [print] ([.builtin_print]),
    the application menu and [util.open_editor] are not under src/.  The
    console binds events to calls into them; a call is recorded in the
    trace, with its arguments, and changes nothing else. *)

Definition prompt_call : M unit := emit EvPromptCall.
Definition prompt_move : M unit := emit EvPromptMove.
Definition prompt_set_is_on_bottom (b : bool) : M unit := emit (EvPromptSetOnBottom b).
Definition prompt_history_extend (s : string) : M unit := emit (EvHistoryExtend s).
Definition parse_preprocess (source : string) : M unit := emit (EvPreprocess source).
Definition parse_call (source : string) : M unit := emit (EvParse source).
Definition builtin_print (s : string) : M unit := emit (EvBuiltinPrint s).
Definition menu_setview (name : string) (visible : bool) : M unit :=
  emit (EvSetView name visible).
Definition open_editor (path : string) : M unit := emit (EvOpenEditor path).

(** How a call returns: normally, or by raising. *)
Inductive outcome (A : Type) :=
| Returned (a : A)
| Raised (exn : string).
Arguments Returned {A} a.
Arguments Raised {A} exn.

(** What [code.compile_command] makes of a source text. *)
Inductive compiled := SyntaxError | Incomplete | Compiled.

(** The Python runtime the console runs on: the standard library and the
    code the user submits. *)
Record Host := {
  (* traceback.format_exception(type, value, tb) *)
  format_exception : option string -> option pyobj -> option traceback -> list string;
  (* os.path.abspath *)
  abspath : string -> string;
  (* code.compile_command(source, filename, "single") *)
  compile_command : string -> string -> compiled;
  (* InteractiveInterpreter.showsyntaxerror(filename), for a source *)
  showsyntaxerror : string -> string -> Console * Process -> Console * Process;
  (* InteractiveInterpreter.runcode(code), for the code of a source *)
  runcode : string -> string -> Console * Process -> Console * Process;
  (* the builtin eval(source, namespace) *)
  builtin_eval : string -> Console * Process -> outcome pyobj * (Console * Process)
}.

Definition lift {A} (f : Console * Process -> A * (Console * Process)) : M A :=
  fun w =>
    let '(a, (c, p)) := f (con w, proc w) in
    (a, {| con := c; proc := p; trace := trace w |}).

Definition set_sys_last (ei : option exc_info) (p : Process) : Process :=
  {| sys_displayhook := sys_displayhook p; sys_excepthook := sys_excepthook p;
     sys_stdout := sys_stdout p; sys_stderr := sys_stderr p;
     sys_last := ei; builtins := builtins p;
     os_stdout := os_stdout p; os_stderr := os_stderr p |}.

(** ** The methods of [Console] *)

Section Methods.
Variable H : Host.

Definition bell_string : string := String PyStr.bell EmptyString.
Definition tab_string : string := String PyStr.tab EmptyString.
Definition newline_string : string := String PyStr.newline EmptyString.

(** Modelled from the spec: [util.vdict], the class of [app.objects],
    [app.modules] and of the namespace, is not under src/.  The
    registries are taken as the dictionaries their [store] holds: an
    item assignment inserts, [del] removes. *)
Definition setitem (key : string) (value : pyobj) : M unit :=
  if ismodule value
  then modify (fun c => set_app_modules (<[key := value]> (app_modules c)) c)
  else modify (fun c => set_app_objects (<[key := value]> (app_objects c)) c).

(** [del d[key]] raises [KeyError] when [key] is not in [d]. *)
Definition delitem (key : string) (value : pyobj) : M (outcome unit) :=
  if ismodule value
  then
    m <- gets app_modules ;;
    match m !! key with
    | Some _ => modify (set_app_modules (delete key m)) ;; ret (Returned tt)
    | None => ret (Raised "KeyError")
    end
  else
    m <- gets app_objects ;;
    match m !! key with
    | Some _ => modify (set_app_objects (delete key m)) ;; ret (Returned tt)
    | None => ret (Raised "KeyError")
    end.

(** [d.update(e)]: the entries of [e] replace those of [d]. *)
Definition synclocals : M unit :=
  modify (fun c => set_locals (app_objects c ∪ locals c) c) ;;
  modify (fun c => set_locals (app_modules c ∪ locals c) c).

Definition eval (source : string) : M (outcome pyobj) :=
  synclocals ;;
  ns <- gets locals ;;
  emit (EvEval source ns) ;;
  lift (builtin_eval H source).

(** [InteractiveInterpreter.runsource]: a source that does not compile
    is reported and a complete one is run, both giving [False]; for an
    incomplete one nothing is done and the answer is [True]. *)
Definition runsource (source filename : string) : M bool :=
  ns <- gets locals ;;
  emit (EvRunsource source filename ns) ;;
  match compile_command H source filename with
  | SyntaxError =>
      lift (fun s => (tt, showsyntaxerror H source filename s)) ;; ret false
  | Incomplete => ret true
  | Compiled =>
      lift (fun s => (tt, runcode H source filename s)) ;; ret false
  end.

Definition push (s : string) (filename : string) : M unit :=
  synclocals ;;
  buf <- gets buffer ;;
  let source := PyStr.join (buf ++ [s]) in
  parse_preprocess source ;;
  when (String.eqb (PyStr.slice_to 4 source) "plot") prompt_call ;;
  did_compile <- runsource source filename ;;
  (if did_compile : bool
   then modify (fun c => set_buffer (buffer c ++ [s +:+ newline_string]) c)
   else
     parse_call source ;;
     prompt_history_extend s ;;
     modify (set_buffer [])) ;;
  prompt_call.

(** One turn of the loop [for r in args] of [write]; [nargs] is
    [len(args)] and the result is the value of [tags] after the turn. *)
Definition write_arg (nargs : nat) (syntax_highlight : bool) (tags : pytags)
    (r : pyobj) : M pytags :=
  let tags :=
    if Re.match_traceback (py_str r) then TagTuple ("red" :: tag_elems tags) else tags in
  if is_none r then ret tags
  else
    tags <- (if is_exception r
             then builtin_print bell_string ;; ret (TagTuple (tag_elems tags ++ ["red"]))
             else ret tags) ;;
    Tk.insert Ix_end (py_str r) (Some tags) syntax_highlight ;;
    when (1 <? nargs) (Tk.insert Ix_end tab_string None false) ;;
    ret tags.

Fixpoint write_args (nargs : nat) (syntax_highlight : bool) (tags : pytags)
    (args : list pyobj) : M pytags :=
  match args with
  | [] => ret tags
  | r :: rest =>
      tags' <- write_arg nargs syntax_highlight tags r ;;
      write_args nargs syntax_highlight tags' rest
  end.

(** The four [highlight] calls sit in a [try] whose handler passes;
    the modelled [highlight] does not raise. *)
Definition write (args : list pyobj) (syntax_highlight : bool) (tags : pytags) : M unit :=
  idx <- Tk.index_insert ;;
  write_args (length args) syntax_highlight tags args ;;
  highlight Re.RE_FILEPATH "error_file" idx ;;
  highlight Re.RE_INPUT "purple" idx ;;
  highlight Re.RE_LINE "blue" idx ;;
  highlight Re.RE_IN "green" idx ;;
  content <- Tk.get Ix_start Ix_end ;;
  when (PyStr.truthy (PyStr.strip content)) (Tk.insert Ix_end newline_string None false) ;;
  Tk.see Ix_end ;;
  prompt_move.

(** [ei] is what [sys.exc_info()] returns when the method is entered.
    [last_tb.tb_next] raises [AttributeError] when there is no
    traceback; the [finally] clause only resets two local names. *)
Definition showtraceback (ei : exc_info) : M (outcome unit) :=
  modify_proc (set_sys_last (Some ei)) ;;
  match ei_tb ei with
  | None => ret (Raised "AttributeError")
  | Some last_tb =>
      let lines := format_exception H (ei_type ei) (ei_value ei) (tb_next last_tb) in
      write [PyObject (PyStr.rstrip (PyStr.join lines))] false (TagStr "red") ;;
      builtin_print bell_string ;;
      menu_setview "console" true ;;
      ret (Returned tt)
  end.

Definition clear : M unit :=
  prompt_set_is_on_bottom false ;;
  Tk.delete Ix_start Ix_end.

Definition _click (tag : string) : M unit :=
  hr <- gets hover_range ;;
  match hr with
  | None => ret tt
  | Some (i, j) =>
      content <- Tk.get (Ix_at i) (Ix_at j) ;;
      when (bool_decide (tag = "error_file"))
           (open_editor (abspath H (PyStr.slice_1_m1 content)))
  end.

(** ** The helper class [Clear] *)

Definition Clear_call : M unit :=
  clear ;; prompt_call.

Definition Clear_repr : M string :=
  clear ;; prompt_call ;; ret EmptyString.

End Methods.

(** ** Construction and event dispatch *)

Definition copyright_text : string :=
  "Copyright (c) 2018-2021 Matt Calhoun." +:+ newline_string +:+ "All Rights Reserved.".

Definition credits_text : string :=
  "Created by Matt Calhoun." +:+ newline_string
  +:+ "See https://mathinspector.com for more information.".

Definition set_hooks (p : Process) : Process :=
  {| sys_displayhook := HookWrite;
     sys_excepthook := HookShowtraceback;
     sys_stdout := sys_stdout p; sys_stderr := sys_stderr p;
     sys_last := sys_last p;
     builtins :=
       <["license" := BLicense]>
       (<["credits" := BText credits_text]>
       (<["copyright" := BText copyright_text]>
       (<["clear" := BClear]>
       (<["help" := BHelp]>
       (<["print" := BWrite]> (builtins p))))));
     os_stdout := os_stdout p; os_stderr := os_stderr p |}.

(** The loop [for i in ["error_file"]] and its three [tag_bind] calls. *)
Definition link_bindings : list (string * string * callback) :=
  flat_map (fun i => [(i, "<Motion>", CbMotion i);
                      (i, "<Leave>", CbLeave i);
                      (i, "<Button-1>", CbClick i)])
           ["error_file"].

(** [Console.__init__(app)]: [app_obj] and [plot_fn] are the two objects
    the namespace starts with, [objects] and [modules] the registries of
    [app], [p] the process the console is created in.  The frame, the
    geometry and the three widget-level bindings do not bear on the
    attributes modelled here. *)
Definition __init__ (app_obj plot_fn : pyobj) (objects modules : gmap string pyobj)
    (p : Process) : World :=
  {| con :=
       {| buffer := [];
          hover_range := None;
          locals := <["plot" := plot_fn]> (<["app" := app_obj]> ∅);
          app_objects := objects;
          app_modules := modules;
          text := [];
          mark_insert := 0;
          tag_bindings := link_bindings |};
     proc := set_hooks p;
     trace := [] |}.

Section Events.
Variable H : Host.




End Events.

(** ** The process's output streams *)

Definition stream_append (t : stream) (s : string) (p : Process) : Process :=
  {| sys_displayhook := sys_displayhook p; sys_excepthook := sys_excepthook p;
     sys_stdout := sys_stdout p; sys_stderr := sys_stderr p;
     sys_last := sys_last p; builtins := builtins p;
     os_stdout := match t with OsStdout => os_stdout p +:+ s | OsStderr => os_stdout p end;
     os_stderr := match t with OsStderr => os_stderr p +:+ s | OsStdout => os_stderr p end |}.

(** [sys.stdout.write(s)] and [sys.stderr.write(s)] *)
Definition sys_stdout_write (s : string) : M unit :=
  fun w => modify_proc (stream_append (sys_stdout (proc w)) s) w.

Definition sys_stderr_write (s : string) : M unit :=
  fun w => modify_proc (stream_append (sys_stderr (proc w)) s) w.

(** A process as the interpreter starts it. *)
Definition fresh_process : Process :=
  {| sys_displayhook := HookDefault; sys_excepthook := HookDefault;
     sys_stdout := OsStdout; sys_stderr := OsStderr;
     sys_last := None;
     builtins := <["print" := BNative "print"]> ∅;
     os_stdout := EmptyString; os_stderr := EmptyString |}.

(** The text [s] shows in the widget. *)
Definition rendered (s : string) (c : Console) : Prop :=
  ∃ pre post, map ch (text c) = pre ++ PyStr.chars s ++ post.

(** ** Derived descriptions

    Pure counterparts of what the methods compute, used to state what
    they leave behind. *)

(** The namespace after [synclocals]. *)
Definition synced (c : Console) : gmap string pyobj :=
  app_modules c ∪ (app_objects c ∪ locals c).

Definition is_runsource (e : event) : bool :=
  match e with EvRunsource _ _ _ => true | _ => false end.

(** The value of [tags] after the turn of the loop for [r]. *)
Definition arg_tags (tags : pytags) (r : pyobj) : pytags :=
  let t := if Re.match_traceback (py_str r)
           then TagTuple ("red" :: tag_elems tags) else tags in
  if is_none r then t
  else if is_exception r then TagTuple (tag_elems t ++ ["red"]) else t.

Definition tagged_cells (s : string) (names : list string) : list cell :=
  map (fun a => Cell a names) (PyStr.chars s).

(** The cells the loop of [write] appends. *)
Fixpoint written_cells (nargs : nat) (tags : pytags) (args : list pyobj) : list cell :=
  match args with
  | [] => []
  | r :: rest =>
      (if is_none r then []
       else tagged_cells (py_str r) (tk_tag_names (arg_tags tags r))
            ++ if 1 <? nargs then [Cell PyStr.tab []] else [])
      ++ written_cells nargs (arg_tags tags r) rest
  end.

(** The four highlights of [write], from the index [idx]. *)
Definition highlighted (idx : nat) (t : list cell) : list cell :=
  highlight_cells Re.RE_IN "green" idx
    (highlight_cells Re.RE_LINE "blue" idx
      (highlight_cells Re.RE_INPUT "purple" idx
        (highlight_cells Re.RE_FILEPATH "error_file" idx t))).

(** The newline [write] adds when the widget holds more than white space. *)
Definition closing_newline (t : list cell) : list cell :=
  if PyStr.truthy (PyStr.strip (PyStr.of_chars (map ch t ++ [PyStr.newline])))
  then [Cell PyStr.newline []] else [].

(** What a method leaves alone when it only touches the widget's text
    and the trace. *)
Definition same_but_text (w w' : World) : Prop :=
  buffer (con w') = buffer (con w)
  ∧ hover_range (con w') = hover_range (con w)
  ∧ locals (con w') = locals (con w)
  ∧ app_objects (con w') = app_objects (con w)
  ∧ app_modules (con w') = app_modules (con w)
  ∧ tag_bindings (con w') = tag_bindings (con w)
  ∧ proc w' = proc w.


(** ** A small host and sample consoles, for running the methods *)

Definition quote_string : string := String PyStr.quote EmptyString.

(** One line per frame, under the usual header, then the exception. *)
Definition sample_format_exception (ty : option string) (v : option pyobj)
    (tb : option traceback) : list string :=
  match tb with
  | Some t =>
      ("Traceback (most recent call last):" +:+ newline_string)
      :: map (fun f => "  File " +:+ quote_string +:+ f +:+ quote_string
                       +:+ ", line 1, in f" +:+ newline_string)
             (tb_frame t :: tb_rest t)
  | None => []
  end
  ++ [default "NoneType" ty +:+ ": " +:+ from_option py_str "None" v +:+ newline_string].

Definition ends_with_colon (s : string) : bool :=
  match rev (PyStr.chars s) with
  | c :: _ => Ascii.eqb c ":"%char
  | [] => false
  end.

(** A name is evaluated by looking it up; a source ending in a colon
    wants more lines, one starting with [?] does not compile, and any
    other is run, with no effect. *)
Definition sample_host : Host :=
  {| format_exception := sample_format_exception;
     abspath := fun p => if String.prefix "/" p then p else "/home/user/" +:+ p;
     compile_command := fun source _ =>
       if ends_with_colon source then Incomplete
       else if String.prefix "?" source then SyntaxError
       else Compiled;
     showsyntaxerror := fun _ _ s => s;
     runcode := fun _ _ s => s;
     builtin_eval := fun source s =>
       (match locals (fst s) !! source with
        | Some v => Returned v
        | None => Raised "NameError"
        end, s) |}.

Definition fresh_console : World :=
  __init__ (PyObject "<app>") (PyObject "<function plot>") ∅ ∅ fresh_process.

(** The console after [x = 5] and then [import os as x]: both
    registries hold the name [x]. *)
Definition shadowed_console : World :=
  exec (setitem "x" (PyModule "<module 'os'>"))
       (exec (setitem "x" (PyObject "5")) fresh_console).

(** The text of a file link, and a console that shows it with the
    quoted path hovered. *)
Definition link_text : string :=
  "File " +:+ quote_string +:+ "a.py" +:+ quote_string.

Definition linked_console : World :=
  exec (write [PyObject link_text] false (TagTuple [])) fresh_console.


(** ** Further methods of [Console] *)

(** [s.split(NL)] for the newline [NL]: the stretches between newlines,
    one more than there are newlines. *)
Fixpoint split_chars (cur l : list ascii) : list (list ascii) :=
  match l with
  | [] => [rev cur]
  | c :: l' =>
      if Ascii.eqb c PyStr.newline
      then rev cur :: split_chars [] l'
      else split_chars (c :: cur) l'
  end.

Definition split_lines (s : string) : list string :=
  map PyStr.of_chars (split_chars [] (PyStr.chars s)).

(** The default of the parameter [filename] of [push] and [runscript]. *)
Definition default_filename : string := "<input>".

Definition greeting : string :=
  "Math Inspector 0.9.0 (Beta)" +:+ newline_string
  +:+ "Type " +:+ quote_string +:+ "help" +:+ quote_string
  +:+ ", " +:+ quote_string +:+ "copyright" +:+ quote_string
  +:+ ", " +:+ quote_string +:+ "credits" +:+ quote_string
  +:+ ", " +:+ quote_string +:+ "license" +:+ quote_string
  +:+ " for more information".

Definition do_greet : M unit :=
  write [PyObject greeting] false (TagTuple []) ;;
  prompt_call.

Section Scripts.
Variable H : Host.



End Scripts.

(** ** The calls of [write], as a list *)

Definition write_arg_events (nargs : nat) (sh : bool) (tags : pytags) (r : pyobj)
    : list event :=
  if is_none r then []
  else (if is_exception r then [EvBuiltinPrint bell_string] else [])
       ++ [EvInsert Ix_end (py_str r) (Some (arg_tags tags r)) sh]
       ++ (if 1 <? nargs then [EvInsert Ix_end tab_string None false] else []).

Fixpoint write_args_events (nargs : nat) (sh : bool) (tags : pytags)
    (args : list pyobj) : list event :=
  match args with
  | [] => []
  | r :: rest =>
      write_arg_events nargs sh tags r
      ++ write_args_events nargs sh (arg_tags tags r) rest
  end.

Definition is_bell (e : event) : bool :=
  match e with EvBuiltinPrint _ => true | _ => false end.


(** The value of [tags] is a tuple that names [red]. *)
Definition red_tuple (t : pytags) : Prop :=
  match t with TagTuple l => "red" ∈ l | TagStr _ => False end.

(** The linked console with only the opening quote and one more
    character of the path hovered. *)
Definition short_hover_console : World :=
  {| con := set_hover_range (Some (5, 7)) (con linked_console);
     proc := proc linked_console;
     trace := trace linked_console |}.

(** The names [__init__] binds in [__builtins__]. *)
Definition console_builtins : list string :=
  ["print"; "help"; "clear"; "copyright"; "credits"; "license"].


(** * Properties *)

(** ** Traces *)

Lemma calls_intro {A} (m : M A) (w : World) (evs : list event) :
  trace (exec m w) = trace w ++ evs → calls m w = evs.
Proof.
  intros E. unfold calls. rewrite E. apply drop_app_length.
Qed.

Ltac run_method :=
  unfold exec, result, bind, when, gets, modify, modify_proc, emit, ret; simpl.

(** ** Registries *)

(** C4. Assigning a name stores the value in [app.modules] when it is a
    module and in [app.objects] otherwise, and deleting a name removes it
    from [app.modules] when the value is a module and from [app.objects]
    otherwise; the other registry is left as it was. *)
Theorem setitem_delitem_route_by_kind (key : string) (value : pyobj) (w : World) :
  let ws := exec (setitem key value) w in
  let wd := exec (delitem key value) w in
  if ismodule value
  then app_modules (con ws) = <[key := value]> (app_modules (con w))
       ∧ app_objects (con ws) = app_objects (con w)
       ∧ app_modules (con wd) = delete key (app_modules (con w))
       ∧ app_modules (con wd) !! key = None
       ∧ app_objects (con wd) = app_objects (con w)
  else app_objects (con ws) = <[key := value]> (app_objects (con w))
       ∧ app_modules (con ws) = app_modules (con w)
       ∧ app_objects (con wd) = delete key (app_objects (con w))
       ∧ app_objects (con wd) !! key = None
       ∧ app_modules (con wd) = app_modules (con w).
Proof.
  unfold setitem, delitem.
  destruct (ismodule value); run_method.
  - destruct (app_modules (con w) !! key) eqn:E; simpl.
    + repeat split; try reflexivity. apply lookup_delete_eq.
    + repeat split; try reflexivity; [symmetry; by apply delete_id | done].
  - destruct (app_objects (con w) !! key) eqn:E; simpl.
    + repeat split; try reflexivity. apply lookup_delete_eq.
    + repeat split; try reflexivity; [symmetry; by apply delete_id | done].
Qed.

(** ** Clearing the console *)

Lemma delete_all_text (c : Console) :
  text (Tk.delete_range 0 (S (length (text c))) c) = [].
Proof.
  unfold Tk.delete_range.
  rewrite Nat.min_r by lia.
  destruct (text c) as [|x t] eqn:E; simpl.
  - exact E.
  - by rewrite drop_all.
Qed.

Lemma delete_range_frame (p q : nat) (c : Console) :
  let c' := Tk.delete_range p q c in
  buffer c' = buffer c ∧ hover_range c' = hover_range c ∧ locals c' = locals c
  ∧ app_objects c' = app_objects c ∧ app_modules c' = app_modules c
  ∧ tag_bindings c' = tag_bindings c.
Proof.
  unfold Tk.delete_range. simpl.
  by destruct (p <? q `min` length (text c)).
Qed.

Lemma get_all_no_text (w : World) :
  text (con w) = [] → result (Tk.get Ix_start Ix_end) w = newline_string.
Proof.
  intros T. unfold Tk.get. run_method. unfold Tk.all_chars, Tk.resolve.
  by rewrite T.
Qed.

(** C7. Calling the clear helper marks the prompt as not on the bottom,
    then deletes the widget's text from [1.0] to [end], then shows the
    prompt again; the widget is left without text and nothing else of
    the console changes. *)
Theorem Clear_call_empties_then_prompts (w : World) :
  let w' := exec Clear_call w in
  calls Clear_call w
    = [EvPromptSetOnBottom false; EvDelete Ix_start Ix_end; EvPromptCall]
  ∧ text (con w') = []
  ∧ result (Tk.get Ix_start Ix_end) w' = newline_string
  ∧ buffer (con w') = buffer (con w)
  ∧ locals (con w') = locals (con w)
  ∧ app_objects (con w') = app_objects (con w)
  ∧ app_modules (con w') = app_modules (con w)
  ∧ proc w' = proc w.
Proof.
  assert (T : text (con (exec Clear_call w)) = []).
  { unfold Clear_call, clear, Tk.delete, prompt_set_is_on_bottom, prompt_call.
    run_method. apply delete_all_text. }
  destruct (delete_range_frame 0 (S (length (text (con w)))) (con w))
    as (Hb & _ & Hl & Ho & Hm & _).
  simpl. split; [|split; [exact T|split]].
  - apply calls_intro.
    unfold Clear_call, clear, Tk.delete, prompt_set_is_on_bottom, prompt_call.
    run_method. by rewrite <- !app_assoc.
  - by apply get_all_no_text.
  - unfold Clear_call, clear, Tk.delete, prompt_set_is_on_bottom, prompt_call.
    run_method. auto.
Qed.

(** C9. Taking the [repr] of the clear helper does what calling it does:
    it leaves the state the call leaves, makes the same three calls,
    and returns the empty string; the state it leaves is never the one
    it started from. *)
Theorem Clear_repr_same_effect_as_call (w : World) :
  exec Clear_repr w = exec Clear_call w
  ∧ calls Clear_repr w = calls Clear_call w
  ∧ result Clear_repr w = EmptyString
  ∧ text (con (exec Clear_repr w)) = []
  ∧ exec Clear_repr w ≠ w.
Proof.
  assert (E : exec Clear_repr w = exec Clear_call w) by reflexivity.
  split; [exact E|]. split; [unfold calls; by rewrite E|].
  split; [reflexivity|]. split.
  - rewrite E. unfold Clear_call, clear, Tk.delete, prompt_set_is_on_bottom, prompt_call.
    run_method. apply delete_all_text.
  - intros Hw. apply (f_equal (fun x => length (trace x))) in Hw. revert Hw.
    unfold Clear_repr, clear, Tk.delete, prompt_set_is_on_bottom, prompt_call.
    run_method. rewrite !length_app. simpl. lia.
Qed.

(** ** The read-eval-print loop *)

Section Loop.
Variable H : Host.


Lemma push_calls (s filename : string) (w : World) :
  let source := PyStr.join (buffer (con w) ++ [s]) in
  calls (push H s filename) w
  = [EvPreprocess source]
    ++ (if String.eqb (PyStr.slice_to 4 source) "plot" then [EvPromptCall] else [])
    ++ [EvRunsource source filename (synced (con w))]
    ++ match compile_command H source filename with
       | Incomplete => []
       | _ => [EvParse source; EvHistoryExtend s]
       end
    ++ [EvPromptCall].
Proof.
  intros source. apply calls_intro.
  unfold push, synclocals, runsource, lift, parse_preprocess, parse_call,
    prompt_history_extend, prompt_call.
  run_method. fold source.
  destruct (String.eqb (PyStr.slice_to 4 source) "plot");
    destruct (compile_command H source filename); simpl;
    try destruct (showsyntaxerror H source filename _);
    try destruct (runcode H source filename _);
    simpl; by rewrite <- !app_assoc.
Qed.


End Loop.

Section LoopProperties.
Variable H : Host.




End LoopProperties.

(** ** The namespace and the registries *)

Lemma synclocals_locals (w : World) :
  locals (con (exec synclocals w)) = synced (con w).
Proof. reflexivity. Qed.

Lemma eval_calls (H : Host) (source : string) (w : World) :
  calls (eval H source) w = [EvEval source (synced (con w))].
Proof.
  apply calls_intro. unfold eval, synclocals, lift. run_method.
  by destruct (builtin_eval H source _) as [a [c p]].
Qed.

(** C3, as stated, fails: in the console where [x] was bound to 5 and
    then to a module, [app.objects] holds the entry [x = 5], and the
    namespace [eval] evaluates in does not. *)
Lemma objects_entry_shadowed_in_namespace :
  ¬ (∀ k v ns,
       app_objects (con shadowed_console) !! k = Some v
       ∨ app_modules (con shadowed_console) !! k = Some v →
       EvEval "x" ns ∈ calls (eval sample_host "x") shadowed_console →
       ns !! k = Some v).
Proof.
  intros Hall.
  specialize (Hall "x" (PyObject "5") (synced (con shadowed_console))).
  rewrite eval_calls in Hall.
  assert (synced (con shadowed_console) !! "x" = Some (PyObject "5")) as E.
  { apply Hall; [left; reflexivity | by apply list_elem_of_singleton]. }
  vm_compute in E. discriminate.
Qed.

(** C3, amended. Before [eval(source)] evaluates and before [push(s)]
    runs the source, the namespace is updated from [app.objects] and then
    from [app.modules]: it holds every entry of [app.modules] and every
    entry of [app.objects] whose key is not a key of [app.modules]; on a
    key of both, it holds the value of [app.modules]. *)
Theorem namespace_synced_before_evaluation (H : Host) (source s filename : string)
    (w : World) :
  calls (eval H source) w = [EvEval source (synced (con w))]
  ∧ List.filter is_runsource (calls (push H s filename) w)
    = [EvRunsource (PyStr.join (buffer (con w) ++ [s])) filename (synced (con w))]
  ∧ locals (con (exec synclocals w)) = synced (con w)
  ∧ (∀ k v, app_modules (con w) !! k = Some v → synced (con w) !! k = Some v)
  ∧ (∀ k v, app_objects (con w) !! k = Some v →
            synced (con w) !! k = Some v ∨ is_Some (app_modules (con w) !! k))
  ∧ (∀ k, app_modules (con w) !! k = None → app_objects (con w) !! k = None →
          synced (con w) !! k = locals (con w) !! k).
Proof.
  split; [apply eval_calls|]. split; [|split; [reflexivity|]].
  - pose proof (push_calls H s filename w) as E. simpl in E. rewrite E.
    destruct (String.eqb _ "plot");
      by destruct (compile_command H _ filename).
  - unfold synced. repeat split.
    + intros k v Hm. by apply lookup_union_Some_l.
    + intros k v Ho. destruct (app_modules (con w) !! k) eqn:Em; [right; eauto|].
      left. rewrite lookup_union_r by done. by apply lookup_union_Some_l.
    + intros k Hm Ho. by rewrite !lookup_union_r.
Qed.

(** ** Writing to the widget *)

Lemma same_but_text_refl (w : World) : same_but_text w w.
Proof. by repeat split. Qed.

Lemma same_but_text_trans (w1 w2 w3 : World) :
  same_but_text w1 w2 → same_but_text w2 w3 → same_but_text w1 w3.
Proof.
  unfold same_but_text. intros (?&?&?&?&?&?&?) (?&?&?&?&?&?&?).
  repeat split; congruence.
Qed.

Lemma insert_cells_end (cells : list cell) (c : Console) :
  text (Tk.insert_cells (S (length (text c))) cells c) = text c ++ cells.
Proof.
  unfold Tk.insert_cells. cbn [text set_text].
  replace (S (length (text c)) `min` length (text c)) with (length (text c)) by lia.
  by rewrite take_ge, drop_ge, app_nil_r by lia.
Qed.

Lemma insert_end_text (s : string) (tags : option pytags) (sh : bool) (w : World) :
  text (con (exec (Tk.insert Ix_end s tags sh) w))
  = text (con w) ++ tagged_cells s (Tk.tag_names tags).
Proof. unfold Tk.insert. run_method. apply insert_cells_end. Qed.

Lemma insert_same_but_text (i : tkindex) (s : string) (tags : option pytags)
    (sh : bool) (w : World) :
  same_but_text w (exec (Tk.insert i s tags sh) w).
Proof. unfold Tk.insert. run_method. by repeat split. Qed.

Lemma exec_bind {A B} (m : M A) (k : A → M B) (w : World) :
  exec (bind m k) w = exec (k (result m w)) (exec m w).
Proof. unfold exec, result, bind. by destruct (m w). Qed.

Lemma result_bind {A B} (m : M A) (k : A → M B) (w : World) :
  result (bind m k) w = result (k (result m w)) (exec m w).
Proof. unfold exec, result, bind. by destruct (m w). Qed.

Lemma emit_same_but_text (e : event) (w : World) : same_but_text w (exec (emit e) w).
Proof. by repeat split. Qed.

Lemma emit_text (e : event) (w : World) : text (con (exec (emit e) w)) = text (con w).
Proof. reflexivity. Qed.

Lemma write_arg_spec (nargs : nat) (sh : bool) (tags : pytags) (r : pyobj) (w : World) :
  let w' := exec (write_arg nargs sh tags r) w in
  result (write_arg nargs sh tags r) w = arg_tags tags r
  ∧ text (con w') = text (con w) ++ written_cells nargs tags [r]
  ∧ same_but_text w w'.
Proof.
  cbn zeta. unfold write_arg, arg_tags, written_cells, builtin_print.
  set (t := if Re.match_traceback (py_str r) then _ else _).
  destruct (is_none r) eqn:En.
  { rewrite !app_nil_r. split; [reflexivity|split; [reflexivity|apply same_but_text_refl]]. }
  rewrite app_nil_r.
  set (t' := if is_exception r then TagTuple (tag_elems t ++ ["red"]) else t).
  set (pre := if is_exception r then _ else _).
  assert (result pre w = t' ∧ text (con (exec pre w)) = text (con w)
          ∧ same_but_text w (exec pre w)) as (Hr & Ht & Hs).
  { unfold pre, t'. destruct (is_exception r); by repeat split. }
  rewrite !result_bind, !exec_bind, Hr. unfold when.
  assert (arg_tags tags r = t') as -> by (unfold arg_tags; by rewrite En).
  change (exec (ret t')) with (fun w : World => w). cbn beta.
  destruct (1 <? nargs).
  - rewrite !insert_end_text, Ht. simpl Tk.tag_names.
    split; [reflexivity|]. split; [by rewrite <- app_assoc|].
    eapply same_but_text_trans; [exact Hs|].
    eapply same_but_text_trans; apply insert_same_but_text.
  - change (exec (ret tt)) with (fun w : World => w). cbn beta.
    rewrite !insert_end_text, Ht. simpl Tk.tag_names.
    split; [reflexivity|]. split; [by rewrite app_nil_r|].
    eapply same_but_text_trans; [exact Hs|]. apply insert_same_but_text.
Qed.

Lemma write_args_spec (nargs : nat) (sh : bool) (args : list pyobj) :
  ∀ (tags : pytags) (w : World),
    let w' := exec (write_args nargs sh tags args) w in
    text (con w') = text (con w) ++ written_cells nargs tags args
    ∧ same_but_text w w'.
Proof.
  induction args as [|r rest IH]; intros tags w.
  - simpl. rewrite app_nil_r. split; [reflexivity|apply same_but_text_refl].
  - destruct (write_arg_spec nargs sh tags r w) as (Ht & Hx & Hs).
    cbn zeta in *. cbn [write_args].
    rewrite exec_bind, Ht.
    destruct (IH (arg_tags tags r) (exec (write_arg nargs sh tags r) w)) as (Hx' & Hs').
    split.
    + rewrite Hx', Hx. cbn [written_cells]. by rewrite app_nil_r, <- !app_assoc.
    + eapply same_but_text_trans; eauto.
Qed.

(** *** Highlighting *)


Lemma add_tag_keeps (tag x : string) (c : cell) :
  x ∈ ctags c → x ∈ ctags (add_tag tag c).
Proof.
  unfold add_tag. simpl. case_bool_decide; [done|].
  intros. apply elem_of_app. by left.
Qed.

Lemma highlight_cells_length (p : Re.pattern) (tag : string) (idx : nat) (t : list cell) :
  length (highlight_cells p tag idx t) = length t.
Proof. apply length_imap. Qed.

Lemma highlight_cells_chars (p : Re.pattern) (tag : string) (idx : nat) (t : list cell) :
  map ch (highlight_cells p tag idx t) = map ch t.
Proof.
  unfold highlight_cells.
  change (map ch) with (fmap (M := list) ch).
  rewrite fmap_imap.
  rewrite (imap_ext _ (const ch)); [apply imap_const|].
  intros i x _. simpl. by destruct (covered p idx _ i).
Qed.

Lemma highlight_cells_keeps (p : Re.pattern) (tag : string) (idx k : nat)
    (t : list cell) (c : cell) :
  t !! k = Some c →
  ∃ c', highlight_cells p tag idx t !! k = Some c'
        ∧ ch c' = ch c ∧ ∀ x, x ∈ ctags c → x ∈ ctags c'.
Proof.
  intros Hk. unfold highlight_cells. rewrite list_lookup_imap, Hk. simpl.
  destruct (covered p idx (map ch t) k); eexists; split; try reflexivity.
  - split; [reflexivity|]. intros x. apply add_tag_keeps.
  - by split.
Qed.



Lemma highlight_text (p : Re.pattern) (tag : string) (idx : nat) (w : World) :
  text (con (exec (highlight p tag idx) w)) = highlight_cells p tag idx (text (con w)).
Proof. reflexivity. Qed.

Lemma highlight_same_but_text (p : Re.pattern) (tag : string) (idx : nat) (w : World) :
  same_but_text w (exec (highlight p tag idx) w).
Proof. by repeat split. Qed.

Lemma get_all (w : World) :
  result (Tk.get Ix_start Ix_end) w
  = PyStr.of_chars (map ch (text (con w)) ++ [PyStr.newline]).
Proof.
  unfold Tk.get. run_method. unfold Tk.sublist, Tk.all_chars, Tk.resolve.
  rewrite Nat.sub_0_r, drop_0.
  rewrite take_ge; [done|]. rewrite length_app, length_map. simpl. lia.
Qed.

Lemma write_text (args : list pyobj) (sh : bool) (tags : pytags) (w : World) :
  let t := highlighted (mark_insert (con w))
             (text (con w) ++ written_cells (length args) tags args) in
  text (con (exec (write args sh tags) w)) = t ++ closing_newline t
  ∧ same_but_text w (exec (write args sh tags) w).
Proof.
  intros t. unfold write.
  rewrite exec_bind.
  change (result Tk.index_insert w) with (mark_insert (con w)).
  change (exec Tk.index_insert w) with w.
  destruct (write_args_spec (length args) sh args tags w) as (Hx & Hs).
  cbn zeta in Hx, Hs.
  set (w1 := exec (write_args (length args) sh tags args) w) in *.
  rewrite exec_bind. fold w1.
  rewrite 4!exec_bind.
  set (w2 := exec (highlight Re.RE_IN _ _) _).
  assert (text (con w2) = t) as Ht.
  { change (text (con w2)) with (highlighted (mark_insert (con w)) (text (con w1))).
    by rewrite Hx. }
  assert (same_but_text w w2) as Hs2.
  { eapply same_but_text_trans; [exact Hs|]. unfold w2.
    do 3 (eapply same_but_text_trans; [|apply highlight_same_but_text]).
    apply highlight_same_but_text. }
  rewrite exec_bind.
  change (exec (Tk.get Ix_start Ix_end) w2) with w2.
  rewrite get_all, Ht. fold (closing_newline t).
  rewrite 2!exec_bind.
  unfold closing_newline, when.
  destruct (PyStr.truthy _).
  - split.
    + unfold Tk.see, prompt_move. rewrite !emit_text.
      rewrite insert_end_text, Ht. reflexivity.
    + eapply same_but_text_trans; [exact Hs2|].
      eapply same_but_text_trans; [apply insert_same_but_text|].
      eapply same_but_text_trans; apply emit_same_but_text.
  - split.
    + unfold Tk.see, prompt_move. rewrite !emit_text.
      change (exec (ret tt) w2) with w2. by rewrite Ht, app_nil_r.
    + eapply same_but_text_trans; [exact Hs2|].
      change (exec (ret tt) w2) with w2.
      eapply same_but_text_trans; apply emit_same_but_text.
Qed.

(** *** The trace only grows *)









(** *** What the loop of [write] puts in the widget *)

Lemma tagged_cells_chars (s : string) (names : list string) :
  map ch (tagged_cells s names) = PyStr.chars s.
Proof.
  unfold tagged_cells. rewrite map_map. simpl. apply map_id.
Qed.

Lemma written_cells_chars (nargs : nat) (args : list pyobj) :
  ∀ tags,
    map ch (written_cells nargs tags args)
    = flat_map (fun r => PyStr.chars (py_str r)
                         ++ if 1 <? nargs then [PyStr.tab] else [])
               (List.filter (fun r => negb (is_none r)) args).
Proof.
  induction args as [|r rest IH]; intros tags; [reflexivity|].
  cbn [written_cells List.filter]. rewrite map_app, IH.
  destruct (is_none r); simpl; [reflexivity|].
  rewrite map_app, tagged_cells_chars. f_equal.
  by destruct (1 <? nargs).
Qed.

Lemma highlighted_chars (idx : nat) (t : list cell) :
  map ch (highlighted idx t) = map ch t.
Proof. unfold highlighted. by rewrite !highlight_cells_chars. Qed.

Lemma closing_newline_chars (t : list cell) :
  map ch (closing_newline t) = [] ∨ map ch (closing_newline t) = [PyStr.newline].
Proof. unfold closing_newline. destruct (PyStr.truthy _); auto. Qed.

(** C8. When [write] is given more than one argument that is not
    [None], the widget receives, for each such argument in order, its
    text followed by a tab (also after the last one), and nothing for an
    argument that is [None]; the only other character added is the
    closing newline. *)
Theorem write_tab_after_every_argument (args : list pyobj) (sh : bool)
    (tags : pytags) (w : World) :
  1 < length (List.filter (fun r => negb (is_none r)) args) →
  ∃ tail,
    (tail = [] ∨ tail = [PyStr.newline])
    ∧ map ch (text (con (exec (write args sh tags) w)))
      = map ch (text (con w))
        ++ flat_map (fun r => PyStr.chars (py_str r) ++ [PyStr.tab])
                    (List.filter (fun r => negb (is_none r)) args)
        ++ tail.
Proof.
  intros Hn.
  destruct (write_text args sh tags w) as (Ht & _). cbn zeta in Ht.
  set (t := highlighted _ _) in Ht.
  exists (map ch (closing_newline t)).
  split; [apply closing_newline_chars|].
  rewrite Ht, map_app. unfold t.
  rewrite highlighted_chars, map_app, written_cells_chars, <- app_assoc.
  assert ((1 <? length args) = true) as ->; [|reflexivity].
  apply Nat.ltb_lt.
  pose proof (List.filter_length_le (fun r => negb (is_none r)) args). lia.
Qed.

(** C8 on [write("a", None, "b")] in a new console. *)
Lemma write_tab_after_every_argument_witness :
  ∃ tail,
    (tail = [] ∨ tail = [PyStr.newline])
    ∧ map ch (text (con (exec (write [PyObject "a"; PyNone; PyObject "b"] false
                                     (TagTuple []))
                              fresh_console)))
      = map ch (text (con fresh_console))
        ++ flat_map (fun r => PyStr.chars (py_str r) ++ [PyStr.tab])
                    (List.filter (fun r => negb (is_none r))
                                 [PyObject "a"; PyNone; PyObject "b"])
        ++ tail.
Proof.
  apply (write_tab_after_every_argument
           [PyObject "a"; PyNone; PyObject "b"] false (TagTuple []) fresh_console).
  simpl. lia.
Defined.

(** ** Tracebacks *)

Lemma highlighted_keeps (idx k : nat) (t : list cell) (c : cell) :
  t !! k = Some c →
  ∃ c', highlighted idx t !! k = Some c'
        ∧ ch c' = ch c ∧ ∀ x, x ∈ ctags c → x ∈ ctags c'.
Proof.
  intros H0. unfold highlighted.
  destruct (highlight_cells_keeps Re.RE_FILEPATH "error_file" idx k _ _ H0)
    as (c1 & H1 & E1 & T1).
  destruct (highlight_cells_keeps Re.RE_INPUT "purple" idx k _ _ H1)
    as (c2 & H2 & E2 & T2).
  destruct (highlight_cells_keeps Re.RE_LINE "blue" idx k _ _ H2)
    as (c3 & H3 & E3 & T3).
  destruct (highlight_cells_keeps Re.RE_IN "green" idx k _ _ H3)
    as (c4 & H4 & E4 & T4).
  exists c4. split; [exact H4|]. split; [congruence|]. auto.
Qed.

Lemma highlighted_length (idx : nat) (t : list cell) :
  length (highlighted idx t) = length t.
Proof. unfold highlighted. by rewrite !highlight_cells_length. Qed.

Lemma tagged_cells_lookup (s : string) (names : list string) (i : nat) (c : cell) :
  tagged_cells s names !! i = Some c → ctags c = names.
Proof.
  unfold tagged_cells. change (map ?f) with (fmap (M := list) f).
  rewrite list_lookup_fmap. destruct (PyStr.chars s !! i); simpl; [|done].
  by intros [= <-].
Qed.

Lemma tagged_cells_length (s : string) (names : list string) :
  length (tagged_cells s names) = length (PyStr.chars s).
Proof. unfold tagged_cells. apply length_map. Qed.


Lemma exec_ret {A} (a : A) (w : World) : exec (ret a) w = w.
Proof. reflexivity. Qed.

Lemma result_ret {A} (a : A) (w : World) : result (ret a) w = a.
Proof. reflexivity. Qed.

Lemma showtraceback_exec (H : Host) (ty : option string) (v : option pyobj)
    (tb : traceback) (w : World) :
  let ei := ExcInfo ty v (Some tb) in
  let s := PyStr.rstrip (PyStr.join (format_exception H ty v (tb_next tb))) in
  exec (showtraceback H ei) w
  = exec (menu_setview "console" true)
      (exec (builtin_print bell_string)
         (exec (write [PyObject s] false (TagStr "red"))
            (exec (modify_proc (set_sys_last (Some ei))) w)))
  ∧ result (showtraceback H ei) w = Returned tt.
Proof.
  intros ei s. unfold showtraceback.
  rewrite exec_bind, result_bind.
  change (ei_tb ei) with (Some tb). cbv iota.
  rewrite 3!exec_bind, 3!result_bind, exec_ret, result_ret.
  change (ei_type ei) with ty. change (ei_value ei) with v. fold s.
  split; reflexivity.
Qed.


Lemma emit_trace (e : event) (w : World) : trace (exec (emit e) w) = trace w ++ [e].
Proof. reflexivity. Qed.


(** ** File links *)





Lemma click_opens_editor (H : Host) (w : World) (hi hj : nat) :
  hover_range (con w) = Some (hi, hj) →
  trace (exec (_click H "error_file") w)
  = trace w ++ [EvOpenEditor
                  (abspath H (PyStr.slice_1_m1
                                (result (Tk.get (Ix_at hi) (Ix_at hj)) w)))].
Proof.
  intros Hh. unfold _click, open_editor, Tk.get.
  unfold exec, result, bind, gets, when. rewrite Hh. reflexivity.
Qed.

Lemma click_without_hover (H : Host) (tag : string) (w : World) :
  hover_range (con w) = None → exec (_click H tag) w = w.
Proof.
  intros Hh. unfold _click. unfold exec, bind, gets. by rewrite Hh.
Qed.




(** ** The process-wide hooks *)

(** C1, as stated, fails: in a console created in a new process, text
    written to the standard output or to the standard error does not
    show in the widget. *)
Lemma stream_write_not_rendered :
  ¬ rendered "hello" (con (exec (sys_stdout_write "hello") fresh_console))
  ∧ ¬ rendered "hello" (con (exec (sys_stderr_write "hello") fresh_console)).
Proof.
  split; intros (pre & post & E); simpl in E;
    apply (f_equal length) in E; rewrite !length_app in E; simpl in E; lia.
Qed.

(** C1, amended. The constructor installs [write] as [sys.displayhook]
    and as the builtin [print], and [showtraceback] as [sys.excepthook];
    it leaves [sys.stdout] and [sys.stderr] as they were, and text
    written to either stream reaches the process's stream and changes
    neither the console nor the trace. *)
Theorem init_installs_hooks (app_obj plot_fn : pyobj)
    (objects modules : gmap string pyobj) (p : Process) (s : string) :
  let w := __init__ app_obj plot_fn objects modules p in
  sys_displayhook (proc w) = HookWrite
  ∧ sys_excepthook (proc w) = HookShowtraceback
  ∧ builtins (proc w) !! "print" = Some BWrite
  ∧ sys_stdout (proc w) = sys_stdout p
  ∧ sys_stderr (proc w) = sys_stderr p
  ∧ con (exec (sys_stdout_write s) w) = con w
  ∧ trace (exec (sys_stdout_write s) w) = trace w
  ∧ con (exec (sys_stderr_write s) w) = con w
  ∧ trace (exec (sys_stderr_write s) w) = trace w
  ∧ (sys_stdout p = OsStdout →
     os_stdout (proc (exec (sys_stdout_write s) w)) = os_stdout p +:+ s)
  ∧ (sys_stderr p = OsStderr →
     os_stderr (proc (exec (sys_stderr_write s) w)) = os_stderr p +:+ s).
Proof.
  cbn zeta. repeat split.
  - unfold __init__, set_hooks. cbn [proc builtins].
    by rewrite !lookup_insert_ne, lookup_insert_eq by done.
  - intros E. unfold sys_stdout_write. run_method. by rewrite E.
  - intros E. unfold sys_stderr_write. run_method. by rewrite E.
Qed.

(** ** The methods on examples *)

(** With no exception being handled, [sys.exc_info()] has no traceback
    and [last_tb.tb_next] raises before anything is written. *)
Lemma showtraceback_without_traceback (H : Host) (ty : option string)
    (v : option pyobj) (w : World) :
  result (showtraceback H (ExcInfo ty v None)) w = Raised "AttributeError"
  ∧ con (exec (showtraceback H (ExcInfo ty v None)) w) = con w
  ∧ trace (exec (showtraceback H (ExcInfo ty v None)) w) = trace w.
Proof. by repeat split. Qed.

Example push_incomplete_line :
  buffer (con (exec (push sample_host "def f():" "<input>") fresh_console))
  = ["def f():" +:+ newline_string].
Proof. reflexivity. Qed.

Example push_second_line :
  let w := exec (push sample_host "def f():" "<input>") fresh_console in
  List.filter is_runsource (calls (push sample_host "  return 1" "<input>") w)
  = [EvRunsource ("def f():" +:+ newline_string +:+ "  return 1") "<input>"
       (locals (con fresh_console))]
  ∧ buffer (con (exec (push sample_host "  return 1" "<input>") w)) = [].
Proof. split; vm_compute; reflexivity. Qed.

Example push_plot_shows_prompt_first :
  take 3 (calls (push sample_host "plot(x)" "<input>") fresh_console)
  = [EvPreprocess "plot(x)"; EvPromptCall;
     EvRunsource "plot(x)" "<input>" (locals (con fresh_console))].
Proof. vm_compute. reflexivity. Qed.

Example push_other_shows_prompt_last :
  calls (push sample_host "x = 1" "<input>") fresh_console
  = [EvPreprocess "x = 1";
     EvRunsource "x = 1" "<input>" (locals (con fresh_console));
     EvParse "x = 1"; EvHistoryExtend "x = 1"; EvPromptCall].
Proof. vm_compute. reflexivity. Qed.

Example write_two_values :
  PyStr.of_chars
    (map ch (text (con (exec (write [PyObject "a"; PyNone; PyObject "b"] false
                                    (TagTuple []))
                             fresh_console))))
  = "a" +:+ tab_string +:+ "b" +:+ tab_string +:+ newline_string.
Proof. vm_compute. reflexivity. Qed.

Example write_one_value_has_no_tab :
  PyStr.of_chars
    (map ch (text (con (exec (write [PyObject "a"] false (TagTuple []))
                             fresh_console))))
  = "a" +:+ newline_string.
Proof. vm_compute. reflexivity. Qed.

Example eval_sees_module_not_object :
  result (eval sample_host "x") shadowed_console
  = Returned (PyModule "<module 'os'>").
Proof. vm_compute. reflexivity. Qed.

Example stdout_write_reaches_process :
  os_stdout (proc (exec (sys_stdout_write "hello") fresh_console)) = "hello".
Proof. reflexivity. Qed.

Example traceback_tags_of_header :
  let w := exec (showtraceback sample_host
                   (ExcInfo (Some "ValueError") (Some (PyException "bad"))
                            (Some (Tb "<input>" ["a.py"]))))
                fresh_console in
  ctags <$> text (con w) !! 0 = Some ["red"; "r"; "e"; "d"]
  ∧ last (trace w) = Some (EvSetView "console" true).
Proof. split; vm_compute; reflexivity. Qed.

(** ** The insert mark

    The mark starts at the end of the empty widget and the methods keep
    it within the text, so the index [write] reads before inserting is
    at or before the place where the new text starts. *)

Lemma insert_cells_end_mark (cells : list cell) (c : Console) :
  mark_insert c ≤ length (text c) →
  let c' := Tk.insert_cells (S (length (text c))) cells c in
  mark_insert c' ≤ length (text c').
Proof.
  intros Hm. cbn zeta. rewrite insert_cells_end, length_app.
  unfold Tk.insert_cells. cbn [mark_insert set_text].
  replace (S (length (text c)) `min` length (text c)) with (length (text c)) by lia.
  destruct (length (text c) <=? mark_insert c) eqn:E; [|lia].
  apply Nat.leb_le in E. lia.
Qed.

Lemma insert_end_mark (s : string) (tags : option pytags) (sh : bool) (w : World) :
  mark_insert (con w) ≤ length (text (con w)) →
  let w' := exec (Tk.insert Ix_end s tags sh) w in
  mark_insert (con w') ≤ length (text (con w')).
Proof.
  intros Hm. unfold Tk.insert. run_method.
  by apply insert_cells_end_mark.
Qed.

Lemma write_arg_mark (nargs : nat) (sh : bool) (tags : pytags) (r : pyobj) (w : World) :
  mark_insert (con w) ≤ length (text (con w)) →
  let w' := exec (write_arg nargs sh tags r) w in
  mark_insert (con w') ≤ length (text (con w')).
Proof.
  intros Hm. cbn zeta. unfold write_arg, builtin_print, when.
  destruct (is_none r); [exact Hm|].
  set (pre := if is_exception r then _ else _).
  assert (mark_insert (con (exec pre w)) ≤ length (text (con (exec pre w)))) as Hpre.
  { unfold pre. by destruct (is_exception r). }
  rewrite 3!exec_bind, exec_ret.
  destruct (1 <? nargs).
  - by do 2 apply insert_end_mark.
  - rewrite exec_ret. by apply insert_end_mark.
Qed.

Lemma write_args_mark (nargs : nat) (sh : bool) (args : list pyobj) :
  ∀ (tags : pytags) (w : World),
    mark_insert (con w) ≤ length (text (con w)) →
    let w' := exec (write_args nargs sh tags args) w in
    mark_insert (con w') ≤ length (text (con w')).
Proof.
  induction args as [|r rest IH]; intros tags w Hm; [exact Hm|].
  cbn zeta. cbn [write_args]. rewrite exec_bind.
  apply IH. by apply write_arg_mark.
Qed.

Lemma highlight_mark (p : Re.pattern) (tag : string) (idx : nat) (w : World) :
  mark_insert (con w) ≤ length (text (con w)) →
  let w' := exec (highlight p tag idx) w in
  mark_insert (con w') ≤ length (text (con w')).
Proof.
  intros Hm. cbn zeta. rewrite highlight_text, highlight_cells_length. exact Hm.
Qed.

Lemma emit_mark (e : event) (w : World) :
  mark_insert (con (exec (emit e) w)) = mark_insert (con w).
Proof. reflexivity. Qed.

Lemma write_mark (args : list pyobj) (sh : bool) (tags : pytags) (w : World) :
  mark_insert (con w) ≤ length (text (con w)) →
  let w' := exec (write args sh tags) w in
  mark_insert (con w') ≤ length (text (con w')).
Proof.
  intros Hm. cbn zeta. unfold write. rewrite 7!exec_bind.
  change (exec Tk.index_insert w) with w.
  set (w1 := exec (write_args _ _ _ _) w).
  assert (mark_insert (con w1) ≤ length (text (con w1))) as H1
    by (by apply write_args_mark).
  set (w2 := exec (highlight Re.RE_IN _ _) _).
  assert (mark_insert (con w2) ≤ length (text (con w2))) as H2
    by (unfold w2; by do 4 apply highlight_mark).
  change (exec (Tk.get Ix_start Ix_end) w2) with w2.
  rewrite 2!exec_bind. unfold Tk.see, prompt_move.
  rewrite 2!emit_mark, 2!emit_text.
  unfold when. destruct (PyStr.truthy _); [by apply insert_end_mark|exact H2].
Qed.

Lemma init_mark (app_obj plot_fn : pyobj) (objects modules : gmap string pyobj)
    (p : Process) :
  let w := __init__ app_obj plot_fn objects modules p in
  mark_insert (con w) ≤ length (text (con w)).
Proof. reflexivity. Qed.

Lemma clear_mark (w : World) :
  mark_insert (con w) ≤ length (text (con w)) →
  mark_insert (con (exec Clear_call w)) ≤ length (text (con (exec Clear_call w))).
Proof.
  intros Hm.
  unfold Clear_call, clear, Tk.delete, prompt_set_is_on_bottom, prompt_call.
  run_method. unfold Tk.delete_range.
  replace (S (length (text (con w))) `min` length (text (con w)))
    with (length (text (con w))) by lia.
  destruct (0 <? length (text (con w))) eqn:E0; [|exact Hm].
  cbn [mark_insert text set_text]. rewrite drop_all. simpl.
  destruct (mark_insert (con w) <=? 0) eqn:E1; [apply Nat.leb_le in E1; lia|].
  destruct (length (text (con w)) <=? mark_insert (con w)) eqn:E2; [|lia].
  apply Nat.leb_le in E2. lia.
Qed.

(** * Further properties *)

(** ** Registries and the namespace *)

Lemma set_app_modules_same (c : Console) : set_app_modules (app_modules c) c = c.
Proof. by destruct c. Qed.

Lemma set_app_objects_same (c : Console) : set_app_objects (app_objects c) c = c.
Proof. by destruct c. Qed.

Lemma world_eta (w : World) : {| con := con w; proc := proc w; trace := trace w |} = w.
Proof. by destruct w. Qed.

(** X1. [delitem] raises [KeyError] exactly when the registry its value
    selects (modules for a module, objects otherwise) does not hold the
    key, and then nothing changes; when the key is there it returns
    normally. *)
Theorem delitem_raises_iff_missing (key : string) (value : pyobj) (w : World) :
  let reg := if ismodule value then app_modules (con w) else app_objects (con w) in
  (result (delitem key value) w = Raised "KeyError" ↔ reg !! key = None)
  ∧ (result (delitem key value) w = Returned tt ↔ is_Some (reg !! key))
  ∧ (reg !! key = None → exec (delitem key value) w = w).
Proof.
  unfold delitem. destruct (ismodule value); run_method.
  - destruct (app_modules (con w) !! key) eqn:E; simpl;
      (split; [|split]); try done; try (split; [done|by intros []]); eauto.
  - destruct (app_objects (con w) !! key) eqn:E; simpl;
      (split; [|split]); try done; try (split; [done|by intros []]); eauto.
Qed.

(** X2. Binding a name that the selected registry does not hold and then
    deleting it with the same value returns normally and leaves the
    world as it was. *)
Theorem setitem_then_delitem_restores (key : string) (value : pyobj) (w : World) :
  (if ismodule value then app_modules (con w) else app_objects (con w)) !! key = None →
  result (delitem key value) (exec (setitem key value) w) = Returned tt
  ∧ exec (delitem key value) (exec (setitem key value) w) = w.
Proof.
  unfold setitem, delitem. destruct (ismodule value); intros Hk; run_method.
  - rewrite lookup_insert_eq. simpl. split; [done|].
    rewrite delete_insert_id by done.
    destruct w as [c p t]. destruct c. reflexivity.
  - rewrite lookup_insert_eq. simpl. split; [done|].
    rewrite delete_insert_id by done.
    destruct w as [c p t]. destruct c. reflexivity.
Qed.

Lemma setitem_then_delitem_restores_witness :
  result (delitem "x" (PyObject "5")) (exec (setitem "x" (PyObject "5")) fresh_console)
  = Returned tt
  ∧ exec (delitem "x" (PyObject "5")) (exec (setitem "x" (PyObject "5")) fresh_console)
    = fresh_console.
Proof.
  apply (setitem_then_delitem_restores "x" (PyObject "5") fresh_console).
  reflexivity.
Defined.

(** X3. Binding a name first to a value that is not a module and then to
    a module leaves the name in both registries, each with its own
    value: [setitem] never removes the entry of the other kind. *)
Theorem setitem_kind_change_keeps_both (key : string) (v1 v2 : pyobj) (w : World) :
  ismodule v1 = false → ismodule v2 = true →
  let w' := exec (setitem key v2) (exec (setitem key v1) w) in
  app_objects (con w') !! key = Some v1
  ∧ app_modules (con w') !! key = Some v2
  ∧ (∀ k, k ≠ key → app_objects (con w') !! k = app_objects (con w) !! k
                    ∧ app_modules (con w') !! k = app_modules (con w) !! k).
Proof.
  intros H1 H2. unfold setitem. rewrite H1, H2. run_method.
  rewrite !lookup_insert_eq. repeat split; try done;
    by rewrite lookup_insert_ne.
Qed.

Lemma setitem_kind_change_keeps_both_witness :
  let w' := exec (setitem "x" (PyModule "<module 'os'>"))
                 (exec (setitem "x" (PyObject "5")) fresh_console) in
  app_objects (con w') !! "x" = Some (PyObject "5")
  ∧ app_modules (con w') !! "x" = Some (PyModule "<module 'os'>")
  ∧ (∀ k, k ≠ "x" →
          app_objects (con w') !! k = app_objects (con fresh_console) !! k
          ∧ app_modules (con w') !! k = app_modules (con fresh_console) !! k).
Proof.
  apply (setitem_kind_change_keeps_both "x" (PyObject "5")
           (PyModule "<module 'os'>") fresh_console); reflexivity.
Defined.

Lemma synced_again (c : Console) :
  app_modules c ∪ (app_objects c ∪ synced c) = synced c.
Proof.
  unfold synced. apply map_eq. intros k.
  rewrite !lookup_union.
  destruct (app_modules c !! k), (app_objects c !! k), (locals c !! k); reflexivity.
Qed.

(** X4. [synclocals] is idempotent, drops no name the namespace already
    holds, and leaves the registries as they are. *)
Theorem synclocals_idempotent (w : World) :
  let w' := exec synclocals w in
  exec synclocals w' = w'
  ∧ (∀ k, is_Some (locals (con w) !! k) → is_Some (locals (con w') !! k))
  ∧ app_objects (con w') = app_objects (con w)
  ∧ app_modules (con w') = app_modules (con w).
Proof.
  cbn zeta. split; [|split; [|split; reflexivity]].
  - unfold synclocals. run_method. f_equal.
    unfold set_locals. cbn. f_equal. apply (synced_again (con w)).
  - intros k Hk. change (locals (con (exec synclocals w))) with (synced (con w)).
    unfold synced. rewrite !lookup_union_is_Some. auto.
Qed.

(** X5. A name that was bound, synchronised, and then deleted from its
    registry stays in the namespace: the next [synclocals] still finds
    it there with its value, although no registry holds it. *)
Theorem deleted_name_stays_in_namespace (key : string) (value : pyobj) (w : World) :
  (if ismodule value then app_objects (con w) else app_modules (con w)) !! key = None →
  let w1 := exec synclocals (exec (setitem key value) w) in
  let w2 := exec synclocals (exec (delitem key value) w1) in
  result (delitem key value) w1 = Returned tt
  ∧ app_objects (con w2) !! key = None
  ∧ app_modules (con w2) !! key = None
  ∧ locals (con w2) !! key = Some value.
Proof.
  unfold setitem, delitem, synclocals.
  destruct (ismodule value); intros Hk; run_method;
    rewrite lookup_insert_eq; simpl;
    rewrite ?lookup_delete_eq, ?Hk;
    repeat split; try done;
    rewrite !lookup_union, ?lookup_delete_eq, ?lookup_insert_eq, ?Hk;
    by rewrite ?(left_id None _), ?union_Some_l.
Qed.

Lemma deleted_name_stays_in_namespace_witness :
  let w1 := exec synclocals (exec (setitem "x" (PyObject "5")) fresh_console) in
  let w2 := exec synclocals (exec (delitem "x" (PyObject "5")) w1) in
  result (delitem "x" (PyObject "5")) w1 = Returned tt
  ∧ app_objects (con w2) !! "x" = None
  ∧ app_modules (con w2) !! "x" = None
  ∧ locals (con w2) !! "x" = Some (PyObject "5").
Proof.
  apply (deleted_name_stays_in_namespace "x" (PyObject "5") fresh_console).
  reflexivity.
Defined.

(** ** Lines and scripts *)

Section Lines.
Variable H : Host.


Lemma push_incomplete_state (s filename : string) (w : World) :
  compile_command H (PyStr.join (buffer (con w) ++ [s])) filename = Incomplete →
  con (exec (push H s filename) w)
  = set_buffer (buffer (con w) ++ [s +:+ newline_string])
               (set_locals (synced (con w)) (con w))
  ∧ proc (exec (push H s filename) w) = proc w.
Proof.
  intros Hc.
  unfold push, synclocals, runsource, lift, parse_preprocess, parse_call,
    prompt_history_extend, prompt_call.
  run_method. rewrite Hc.
  by destruct (String.eqb _ "plot").
Qed.


Lemma push_runs_once (s filename : string) (w : World) :
  List.filter is_runsource (calls (push H s filename) w)
  = [EvRunsource (PyStr.join (buffer (con w) ++ [s])) filename (synced (con w))].
Proof.
  pose proof (push_calls H s filename w) as E. cbn zeta in E. rewrite E.
  destruct (String.eqb _ "plot"); by destruct (compile_command H _ filename).
Qed.

Lemma string_app_cons (c : ascii) (a b : string) :
  String c a +:+ b = String c (a +:+ b).
Proof. reflexivity. Qed.

Lemma string_app_empty (a : string) : a +:+ EmptyString = a.
Proof.
  induction a as [|c a IH]; [reflexivity|]. by rewrite string_app_cons, IH.
Qed.

Lemma string_app_assoc (a b c : string) : (a +:+ b) +:+ c = a +:+ (b +:+ c).
Proof.
  induction a as [|x a IH]; [reflexivity|]. by rewrite !string_app_cons, IH.
Qed.

Lemma join_cons (a : string) (l : list string) :
  PyStr.join (a :: l) = a +:+ PyStr.join l.
Proof.
  unfold PyStr.join. destruct l as [|b l]; cbn [String.concat].
  - by rewrite string_app_empty.
  - reflexivity.
Qed.

Lemma join_app (l1 l2 : list string) :
  PyStr.join (l1 ++ l2) = PyStr.join l1 +:+ PyStr.join l2.
Proof.
  induction l1 as [|a l1 IH]; [reflexivity|].
  change ((a :: l1) ++ l2) with (a :: (l1 ++ l2)).
  by rewrite !join_cons, IH, string_app_assoc.
Qed.

Lemma join_one (s : string) : PyStr.join [s] = s.
Proof. reflexivity. Qed.

(** X6. A line that leaves the statement incomplete runs no code: the
    widget, the registries, the hover range, the bindings and the
    process are as before; the namespace is the synchronised one. *)
Theorem push_incomplete_runs_nothing (s filename : string) (w : World) :
  compile_command H (PyStr.join (buffer (con w) ++ [s])) filename = Incomplete →
  let w' := exec (push H s filename) w in
  text (con w') = text (con w)
  ∧ mark_insert (con w') = mark_insert (con w)
  ∧ app_objects (con w') = app_objects (con w)
  ∧ app_modules (con w') = app_modules (con w)
  ∧ hover_range (con w') = hover_range (con w)
  ∧ tag_bindings (con w') = tag_bindings (con w)
  ∧ locals (con w') = synced (con w)
  ∧ proc w' = proc w.
Proof.
  intros Hc. destruct (push_incomplete_state s filename w Hc) as (Ec & Ep).
  cbn zeta. rewrite Ec, Ep. by repeat split.
Qed.

(** X7. After a line [s1] that leaves the statement incomplete, the next
    [push(s2)] hands the interpreter what it was given for [s1], a
    newline, and [s2]. *)
Theorem push_continues_incomplete (s1 s2 f1 f2 : string) (w : World) :
  compile_command H (PyStr.join (buffer (con w) ++ [s1])) f1 = Incomplete →
  List.filter is_runsource (calls (push H s2 f2) (exec (push H s1 f1) w))
  = [EvRunsource (PyStr.join (buffer (con w) ++ [s1]) +:+ newline_string +:+ s2)
                 f2 (synced (con w))].
Proof.
  intros Hc. destruct (push_incomplete_state s1 f1 w Hc) as (Ec & _).
  rewrite push_runs_once, Ec. cbn [buffer set_buffer].
  f_equal. f_equal.
  - rewrite !join_app, !join_one. by rewrite !string_app_assoc.
  - unfold synced at 1. cbn [app_modules app_objects locals set_buffer set_locals].
    apply synced_again.
Qed.


End Lines.

Lemma push_incomplete_runs_nothing_witness :
  let w' := exec (push sample_host "def f():" default_filename) fresh_console in
  text (con w') = text (con fresh_console)
  ∧ mark_insert (con w') = mark_insert (con fresh_console)
  ∧ app_objects (con w') = app_objects (con fresh_console)
  ∧ app_modules (con w') = app_modules (con fresh_console)
  ∧ hover_range (con w') = hover_range (con fresh_console)
  ∧ tag_bindings (con w') = tag_bindings (con fresh_console)
  ∧ locals (con w') = synced (con fresh_console)
  ∧ proc w' = proc fresh_console.
Proof.
  apply (push_incomplete_runs_nothing sample_host "def f():" default_filename
           fresh_console).
  reflexivity.
Defined.

Lemma push_continues_incomplete_witness :
  List.filter is_runsource
    (calls (push sample_host "  return 1" default_filename)
           (exec (push sample_host "def f():" default_filename) fresh_console))
  = [EvRunsource
       (PyStr.join (buffer (con fresh_console) ++ ["def f():"])
        +:+ newline_string +:+ "  return 1")
       default_filename (synced (con fresh_console))].
Proof.
  apply (push_continues_incomplete sample_host "def f():" "  return 1"
           default_filename default_filename fresh_console).
  reflexivity.
Defined.


Section ScriptProperties.
Variable H : Host.







End ScriptProperties.


Example split_lines_trailing_newline :
  split_lines ("a" +:+ newline_string +:+ "b" +:+ newline_string)
  = ["a"; "b"; EmptyString]
  ∧ split_lines EmptyString = [EmptyString].
Proof. split; reflexivity. Qed.

(** ** More on [write] *)

Lemma insert_trace (i : tkindex) (s : string) (tags : option pytags) (sh : bool)
    (w : World) :
  trace (exec (Tk.insert i s tags sh) w) = trace w ++ [EvInsert i s tags sh].
Proof. unfold Tk.insert. by run_method. Qed.

Lemma write_arg_trace (nargs : nat) (sh : bool) (tags : pytags) (r : pyobj) (w : World) :
  trace (exec (write_arg nargs sh tags r) w)
  = trace w ++ write_arg_events nargs sh tags r.
Proof.
  unfold write_arg, write_arg_events, builtin_print, when.
  destruct (is_none r) eqn:En; [by rewrite app_nil_r|].
  assert (arg_tags tags r
          = if is_exception r
            then TagTuple (tag_elems (if Re.match_traceback (py_str r)
                                      then TagTuple ("red" :: tag_elems tags)
                                      else tags) ++ ["red"])
            else if Re.match_traceback (py_str r)
                 then TagTuple ("red" :: tag_elems tags) else tags) as ->.
  { unfold arg_tags. by rewrite En. }
  rewrite 3!exec_bind, exec_ret.
  destruct (is_exception r), (1 <? nargs);
    rewrite ?exec_ret, ?insert_trace, ?exec_bind, ?result_bind, ?result_ret,
      ?exec_ret, ?emit_trace, ?insert_trace;
    by rewrite <- ?app_assoc.
Qed.

Lemma write_args_trace (nargs : nat) (sh : bool) (args : list pyobj) :
  ∀ (tags : pytags) (w : World),
    trace (exec (write_args nargs sh tags args) w)
    = trace w ++ write_args_events nargs sh tags args.
Proof.
  induction args as [|r rest IH]; intros tags w; [by rewrite app_nil_r|].
  cbn [write_args write_args_events]. rewrite exec_bind.
  destruct (write_arg_spec nargs sh tags r w) as (Hr & _).
  by rewrite Hr, IH, write_arg_trace, app_assoc.
Qed.

Lemma highlight_trace (p : Re.pattern) (tag : string) (idx : nat) (w : World) :
  trace (exec (highlight p tag idx) w) = trace w ++ [EvHighlight p tag idx].
Proof. unfold highlight. by run_method. Qed.

Lemma write_trace (args : list pyobj) (sh : bool) (tags : pytags) (w : World) :
  let idx := mark_insert (con w) in
  let t := highlighted idx (text (con w) ++ written_cells (length args) tags args) in
  trace (exec (write args sh tags) w)
  = trace w
    ++ write_args_events (length args) sh tags args
    ++ [EvHighlight Re.RE_FILEPATH "error_file" idx;
        EvHighlight Re.RE_INPUT "purple" idx;
        EvHighlight Re.RE_LINE "blue" idx;
        EvHighlight Re.RE_IN "green" idx]
    ++ map (fun _ => EvInsert Ix_end newline_string None false) (closing_newline t)
    ++ [EvSee Ix_end; EvPromptMove].
Proof.
  intros idx t. unfold write. rewrite 7!exec_bind.
  change (result Tk.index_insert w) with idx.
  change (exec Tk.index_insert w) with w.
  destruct (write_args_spec (length args) sh args tags w) as (Hx & _).
  cbn zeta in Hx.
  set (w1 := exec (write_args (length args) sh tags args) w) in *.
  set (w2 := exec (highlight Re.RE_IN _ _) _).
  assert (text (con w2) = t) as Ht.
  { change (text (con w2)) with (highlighted idx (text (con w1))). by rewrite Hx. }
  assert (trace w2 = trace w1
                     ++ [EvHighlight Re.RE_FILEPATH "error_file" idx;
                         EvHighlight Re.RE_INPUT "purple" idx;
                         EvHighlight Re.RE_LINE "blue" idx;
                         EvHighlight Re.RE_IN "green" idx]) as Ew2.
  { unfold w2. rewrite 4!highlight_trace. by rewrite <- !app_assoc. }
  change (exec (Tk.get Ix_start Ix_end) w2) with w2.
  rewrite get_all, Ht. fold (closing_newline t).
  rewrite 2!exec_bind. unfold Tk.see, prompt_move. rewrite 2!emit_trace.
  unfold closing_newline, when.
  destruct (PyStr.truthy _); cbn [map];
    rewrite ?insert_trace, ?exec_ret, Ew2; unfold w1;
    rewrite write_args_trace; by rewrite <- !app_assoc.
Qed.






(** *** Tags carried from one argument to the next *)

Lemma arg_tags_keeps_red (t : pytags) (r : pyobj) :
  red_tuple t → red_tuple (arg_tags t r).
Proof.
  destruct t as [l|s]; [|done]. intros Hr. unfold arg_tags.
  destruct (Re.match_traceback (py_str r)), (is_none r), (is_exception r);
    cbn [tag_elems red_tuple]; set_solver.
Qed.

Lemma arg_tags_starts_red (t : pytags) (r : pyobj) :
  Re.match_traceback (py_str r) = true ∨ is_exception r = true →
  red_tuple (arg_tags t r).
Proof.
  intros [Hm|He]; unfold arg_tags.
  - rewrite Hm. destruct (is_none r), (is_exception r);
      cbn [tag_elems red_tuple]; set_solver.
  - rewrite He. destruct r; try discriminate. cbn [is_none red_tuple]. set_solver.
Qed.

Lemma written_cells_red (nargs : nat) (args : list pyobj) :
  ∀ tags, red_tuple tags →
    Forall (fun c => "red" ∈ ctags c ∨ ch c = PyStr.tab)
           (written_cells nargs tags args).
Proof.
  induction args as [|r rest IH]; intros tags Hr; [constructor|].
  cbn [written_cells]. pose proof (arg_tags_keeps_red tags r Hr) as Hr'.
  apply Forall_app. split; [|by apply IH].
  destruct (is_none r); [constructor|].
  apply Forall_app. split.
  - unfold tagged_cells. apply Forall_forall. intros c Hc.
    apply list_elem_of_fmap in Hc as (a & -> & _). left. cbn [ctags].
    destruct (arg_tags tags r); [exact Hr'|done].
  - destruct (1 <? nargs); [|constructor].
    constructor; [by right|constructor].
Qed.

(** X14. Once [write] meets an argument whose text begins with the
    traceback header, or that is an exception, the tag [red] stays: when
    the first argument is one, every character the call writes for its
    arguments carries [red], the separating tabs apart. *)
Theorem write_red_carries_over (r : pyobj) (rest : list pyobj) (sh : bool)
    (tags : pytags) (w : World) :
  Re.match_traceback (py_str r) = true ∨ is_exception r = true →
  let args := r :: rest in
  let n0 := length (text (con w)) in
  let n1 := length (text (con (exec (write_args (length args) sh tags args) w))) in
  Forall (fun c => "red" ∈ ctags c ∨ ch c = PyStr.tab)
         (Tk.sublist n0 n1 (text (con (exec (write args sh tags) w)))).
Proof.
  intros Hr args n0 n1.
  destruct (write_text args sh tags w) as (Ht & _). cbn zeta in Ht.
  destruct (write_args_spec (length args) sh args tags w) as (Hx & _).
  cbn zeta in Hx.
  set (wr := written_cells (length args) tags args) in *.
  set (t := highlighted _ _) in Ht.
  assert (length t = n1) as El.
  { unfold t, n1. by rewrite highlighted_length, Hx. }
  assert (n1 = n0 + length wr) as En.
  { unfold n1, n0. by rewrite Hx, length_app. }
  assert (Forall (fun c => "red" ∈ ctags c ∨ ch c = PyStr.tab) wr) as Hw.
  { unfold wr, args. cbn [written_cells].
    pose proof (arg_tags_starts_red tags r Hr) as Hred.
    apply Forall_app. split; [|by apply written_cells_red].
    destruct (is_none r); [constructor|].
    apply Forall_app. split.
    - unfold tagged_cells. apply Forall_forall. intros c Hc.
      apply list_elem_of_fmap in Hc as (a & -> & _). left. cbn [ctags].
      destruct (arg_tags tags r); [exact Hred|done].
    - destruct (1 <? length (r :: rest)); [|constructor].
      constructor; [by right|constructor]. }
  rewrite Ht. unfold Tk.sublist.
  apply Forall_lookup. intros i c Hc.
  apply lookup_take_Some in Hc as [Hc Hi].
  rewrite lookup_drop in Hc.
  rewrite lookup_app_l in Hc by lia.
  destruct (lookup_lt_is_Some_2 wr i) as [c0 Hc0]; [lia|].
  assert ((text (con w) ++ wr) !! (n0 + i) = Some c0) as E0.
  { rewrite lookup_app_r by (unfold n0; lia).
    replace (n0 + i - length (text (con w))) with i by (unfold n0; lia). exact Hc0. }
  destruct (highlighted_keeps (mark_insert (con w)) _ _ _ E0) as (c' & Hc' & Ech & Hin).
  fold t in Hc'. assert (c = c') as -> by congruence.
  rewrite Forall_lookup in Hw. destruct (Hw i c0 Hc0) as [Hred|Htab].
  - left. by apply Hin.
  - right. congruence.
Qed.

Lemma write_red_carries_over_witness :
  let args := [PyException "bad"; PyObject "x"] in
  let n0 := length (text (con fresh_console)) in
  let n1 := length (text (con (exec (write_args (length args) false (TagTuple []) args)
                                    fresh_console))) in
  Forall (fun c => "red" ∈ ctags c ∨ ch c = PyStr.tab)
         (Tk.sublist n0 n1
            (text (con (exec (write args false (TagTuple [])) fresh_console)))).
Proof.
  apply (write_red_carries_over (PyException "bad") [PyObject "x"] false
           (TagTuple []) fresh_console).
  right. reflexivity.
Defined.

Lemma write_args_events_bells (nargs : nat) (sh : bool) (args : list pyobj) :
  ∀ tags, List.filter is_bell (write_args_events nargs sh tags args)
          = map (fun _ => EvBuiltinPrint bell_string) (List.filter is_exception args).
Proof.
  induction args as [|r rest IH]; intros tags; [reflexivity|].
  cbn [write_args_events List.filter]. rewrite List.filter_app, IH.
  unfold write_arg_events.
  destruct r; cbn [is_none is_exception]; by destruct (1 <? nargs).
Qed.

(** X15. [write] calls the interpreter's own [print] with the bell
    character once for each argument that is an exception, and for no
    other reason. *)
Theorem write_rings_once_per_exception (args : list pyobj) (sh : bool)
    (tags : pytags) (w : World) :
  List.filter is_bell (calls (write args sh tags) w)
  = map (fun _ => EvBuiltinPrint bell_string) (List.filter is_exception args).
Proof.
  rewrite (calls_intro _ w _ (write_trace args sh tags w)).
  rewrite !List.filter_app, write_args_events_bells. cbn [List.filter is_bell].
  rewrite app_nil_r. unfold closing_newline.
  destruct (PyStr.truthy _); cbn; by rewrite app_nil_r.
Qed.

(** *** The insert mark at the end of the text *)

Lemma insert_cells_end_mark_eq (cells : list cell) (c : Console) :
  mark_insert c = length (text c) →
  let c' := Tk.insert_cells (S (length (text c))) cells c in
  mark_insert c' = length (text c').
Proof.
  intros Hm. cbn zeta. rewrite insert_cells_end, length_app.
  unfold Tk.insert_cells. cbn [mark_insert set_text].
  replace (S (length (text c)) `min` length (text c)) with (length (text c)) by lia.
  destruct (length (text c) <=? mark_insert c) eqn:E; [lia|].
  apply Nat.leb_gt in E. lia.
Qed.

Lemma insert_end_mark_eq (s : string) (tags : option pytags) (sh : bool) (w : World) :
  mark_insert (con w) = length (text (con w)) →
  let w' := exec (Tk.insert Ix_end s tags sh) w in
  mark_insert (con w') = length (text (con w')).
Proof.
  intros Hm. unfold Tk.insert. run_method.
  by apply insert_cells_end_mark_eq.
Qed.

Lemma write_arg_mark_eq (nargs : nat) (sh : bool) (tags : pytags) (r : pyobj) (w : World) :
  mark_insert (con w) = length (text (con w)) →
  let w' := exec (write_arg nargs sh tags r) w in
  mark_insert (con w') = length (text (con w')).
Proof.
  intros Hm. cbn zeta. unfold write_arg, builtin_print, when.
  destruct (is_none r); [exact Hm|].
  set (pre := if is_exception r then _ else _).
  assert (mark_insert (con (exec pre w)) = length (text (con (exec pre w)))) as Hpre.
  { unfold pre. by destruct (is_exception r). }
  rewrite 3!exec_bind, exec_ret.
  destruct (1 <? nargs).
  - by do 2 apply insert_end_mark_eq.
  - rewrite exec_ret. by apply insert_end_mark_eq.
Qed.

Lemma write_args_mark_eq (nargs : nat) (sh : bool) (args : list pyobj) :
  ∀ (tags : pytags) (w : World),
    mark_insert (con w) = length (text (con w)) →
    let w' := exec (write_args nargs sh tags args) w in
    mark_insert (con w') = length (text (con w')).
Proof.
  induction args as [|r rest IH]; intros tags w Hm; [exact Hm|].
  cbn zeta. cbn [write_args]. rewrite exec_bind.
  apply IH. by apply write_arg_mark_eq.
Qed.

Lemma highlight_mark_eq (p : Re.pattern) (tag : string) (idx : nat) (w : World) :
  mark_insert (con w) = length (text (con w)) →
  let w' := exec (highlight p tag idx) w in
  mark_insert (con w') = length (text (con w')).
Proof.
  intros Hm. cbn zeta. rewrite highlight_text, highlight_cells_length. exact Hm.
Qed.

Lemma write_mark_eq (args : list pyobj) (sh : bool) (tags : pytags) (w : World) :
  mark_insert (con w) = length (text (con w)) →
  let w' := exec (write args sh tags) w in
  mark_insert (con w') = length (text (con w')).
Proof.
  intros Hm. cbn zeta. unfold write. rewrite 7!exec_bind.
  change (exec Tk.index_insert w) with w.
  set (w1 := exec (write_args _ _ _ _) w).
  assert (mark_insert (con w1) = length (text (con w1))) as H1
    by (by apply write_args_mark_eq).
  set (w2 := exec (highlight Re.RE_IN _ _) _).
  assert (mark_insert (con w2) = length (text (con w2))) as H2
    by (unfold w2; by do 4 apply highlight_mark_eq).
  change (exec (Tk.get Ix_start Ix_end) w2) with w2.
  rewrite 2!exec_bind. unfold Tk.see, prompt_move.
  rewrite 2!emit_mark, 2!emit_text.
  unfold when. destruct (PyStr.truthy _); [by apply insert_end_mark_eq|exact H2].
Qed.

(** X16. The insert mark stays at the end of the text: it is there in a
    new console, and [write] and the clear helper leave it there, so the
    index [write] reads before it inserts is where its text begins. *)
Theorem insert_mark_stays_at_end (args : list pyobj) (sh : bool) (tags : pytags)
    (w : World) :
  mark_insert (con w) = length (text (con w)) →
  mark_insert (con (exec (write args sh tags) w))
  = length (text (con (exec (write args sh tags) w)))
  ∧ mark_insert (con (exec Clear_call w)) = 0
  ∧ text (con (exec Clear_call w)) = []
  ∧ result Tk.index_insert w = length (text (con w))
  ∧ (∀ app_obj plot_fn objects modules p,
       mark_insert (con (__init__ app_obj plot_fn objects modules p))
       = length (text (con (__init__ app_obj plot_fn objects modules p)))).
Proof.
  intros Hm. split; [by apply write_mark_eq|].
  assert (text (con (exec Clear_call w)) = []) as Et.
  { unfold Clear_call, clear, Tk.delete, prompt_set_is_on_bottom, prompt_call.
    run_method. apply delete_all_text. }
  split; [|split; [exact Et|split; [exact Hm|reflexivity]]].
  assert (mark_insert (con w) ≤ length (text (con w))) as Hle by lia.
  pose proof (clear_mark w Hle) as Hc. rewrite Et in Hc. cbn [length] in Hc. lia.
Qed.

Lemma insert_mark_stays_at_end_witness :
  mark_insert (con (exec (write [PyObject "a"] false (TagTuple [])) linked_console))
  = length (text (con (exec (write [PyObject "a"] false (TagTuple [])) linked_console)))
  ∧ mark_insert (con (exec Clear_call linked_console)) = 0
  ∧ text (con (exec Clear_call linked_console)) = []
  ∧ result Tk.index_insert linked_console = length (text (con linked_console))
  ∧ (∀ app_obj plot_fn objects modules p,
       mark_insert (con (__init__ app_obj plot_fn objects modules p))
       = length (text (con (__init__ app_obj plot_fn objects modules p)))).
Proof.
  apply (insert_mark_stays_at_end [PyObject "a"] false (TagTuple []) linked_console).
  reflexivity.
Defined.

(** ** Construction *)

(** X17. The constructor binds six names in [__builtins__] and leaves
    every other builtin as it was; the console starts with an empty
    buffer, an empty widget, nothing hovered, the registries of the
    application, and a namespace that holds [app] and [plot] only. *)
Theorem init_builtins_and_namespace (app_obj plot_fn : pyobj)
    (objects modules : gmap string pyobj) (p : Process) (name : string) :
  let w := __init__ app_obj plot_fn objects modules p in
  builtins (proc w) !! "help" = Some BHelp
  ∧ builtins (proc w) !! "clear" = Some BClear
  ∧ builtins (proc w) !! "copyright" = Some (BText copyright_text)
  ∧ builtins (proc w) !! "credits" = Some (BText credits_text)
  ∧ builtins (proc w) !! "license" = Some BLicense
  ∧ (name ∉ console_builtins → builtins (proc w) !! name = builtins p !! name)
  ∧ buffer (con w) = [] ∧ text (con w) = [] ∧ hover_range (con w) = None
  ∧ app_objects (con w) = objects ∧ app_modules (con w) = modules
  ∧ locals (con w) !! "app" = Some app_obj
  ∧ locals (con w) !! "plot" = Some plot_fn
  ∧ (name ≠ "app" → name ≠ "plot" → locals (con w) !! name = None)
  ∧ trace w = [].
Proof.
  cbn zeta. unfold __init__, set_hooks. cbn [proc con builtins locals].
  repeat split; try reflexivity.
  - by rewrite !lookup_insert_ne, lookup_insert_eq by done.
  - by rewrite !lookup_insert_ne, lookup_insert_eq by done.
  - by rewrite !lookup_insert_ne, lookup_insert_eq by done.
  - by rewrite !lookup_insert_ne, lookup_insert_eq by done.
  - by rewrite lookup_insert_eq.
  - intros Hn. unfold console_builtins in Hn.
    rewrite !lookup_insert_ne; [done|..]; intros <-; apply Hn; set_solver.
  - intros H1 H2. by rewrite !lookup_insert_ne, lookup_empty by done.
Qed.

(** ** Clicks *)

Lemma string_length_of_chars (l : list ascii) :
  String.length (PyStr.of_chars l) = length l.
Proof. induction l as [|a l IH]; simpl; [reflexivity|by rewrite IH]. Qed.

Lemma slice_1_m1_short (s : string) :
  String.length s ≤ 2 → PyStr.slice_1_m1 s = EmptyString.
Proof.
  intros Hl. unfold PyStr.slice_1_m1.
  replace (String.length s - 2) with 0 by lia.
  destruct s as [|a [|b s]]; reflexivity.
Qed.

(** X18. [_click] changes neither the console nor the process, and it
    does nothing at all unless some text is hovered and the tag is
    [error_file]. *)
Theorem click_only_on_hovered_file_link (H : Host) (tag : string) (w : World) :
  con (exec (_click H tag) w) = con w
  ∧ proc (exec (_click H tag) w) = proc w
  ∧ (hover_range (con w) = None ∨ tag ≠ "error_file" → exec (_click H tag) w = w).
Proof.
  unfold _click, open_editor, Tk.get. unfold exec, bind, gets, when.
  destruct (hover_range (con w)) as [[i j]|]; cbn.
  - case_bool_decide; cbn.
    + split; [reflexivity|]. split; [reflexivity|]. intros [?|?]; done.
    + split; [reflexivity|]. split; [reflexivity|]. intros _. by destruct w.
  - split; [reflexivity|]. split; [reflexivity|]. intros _. by destruct w.
Qed.

(** X19. When the hovered stretch has at most two characters, a click on
    the file link opens the editor at the absolute path of the empty
    string: [content[1:-1]] is empty. *)
Theorem click_short_text_opens_empty_path (H : Host) (w : World) (i j : nat) :
  hover_range (con w) = Some (i, j) → j ≤ i + 2 →
  calls (_click H "error_file") w = [EvOpenEditor (abspath H EmptyString)].
Proof.
  intros Hh Hj. apply calls_intro. rewrite (click_opens_editor H w i j Hh).
  rewrite slice_1_m1_short; [done|].
  unfold Tk.get. run_method. rewrite string_length_of_chars.
  unfold Tk.sublist. rewrite length_take. unfold Tk.resolve. lia.
Qed.

Lemma click_short_text_opens_empty_path_witness :
  calls (_click sample_host "error_file") short_hover_console
  = [EvOpenEditor (abspath sample_host EmptyString)].
Proof.
  apply (click_short_text_opens_empty_path sample_host short_hover_console 5 7).
  - reflexivity.
  - lia.
Defined.

(** ** Tracebacks again *)

(** X20. When no exception is being handled ([sys.exc_info()] has no
    traceback), [showtraceback] raises [AttributeError] before it writes
    anything: the console and the trace are as before; [sys.last_type],
    [sys.last_value] and [sys.last_traceback] have already been set, and
    the hooks and streams of the process are untouched. *)
Theorem showtraceback_without_exception_raises (H : Host) (ty : option string)
    (v : option pyobj) (w : World) :
  let ei := ExcInfo ty v None in
  let w' := exec (showtraceback H ei) w in
  result (showtraceback H ei) w = Raised "AttributeError"
  ∧ con w' = con w
  ∧ trace w' = trace w
  ∧ sys_last (proc w') = Some ei
  ∧ sys_displayhook (proc w') = sys_displayhook (proc w)
  ∧ sys_excepthook (proc w') = sys_excepthook (proc w)
  ∧ builtins (proc w') = builtins (proc w)
  ∧ os_stdout (proc w') = os_stdout (proc w)
  ∧ os_stderr (proc w') = os_stderr (proc w).
Proof. by repeat split. Qed.

(** X21. When the formatted text begins with the traceback header,
    [write] unpacks the string [red] it was given as [tags]: every
    character of the text carries, besides [red], the one-letter tags
    [r], [e] and [d]. *)
Theorem traceback_text_gets_letter_tags (H : Host) (ty : option string)
    (v : option pyobj) (tb : traceback) (w : World) :
  let s := PyStr.rstrip (PyStr.join (format_exception H ty v (tb_next tb))) in
  let w' := exec (showtraceback H (ExcInfo ty v (Some tb))) w in
  let n := length (text (con w)) in
  Re.match_traceback s = true →
  Forall (fun c => "red" ∈ ctags c ∧ "r" ∈ ctags c ∧ "e" ∈ ctags c ∧ "d" ∈ ctags c)
         (Tk.sublist n (n + length (PyStr.chars s)) (text (con w'))).
Proof.
  intros s w' n Hm.
  destruct (showtraceback_exec H ty v tb w) as (Ew & _).
  cbn zeta in Ew. fold s w' in Ew.
  set (w0 := exec (modify_proc _) w) in Ew.
  destruct (write_text [PyObject s] false (TagStr "red") w0) as (Ht & _).
  cbn zeta in Ht.
  change (mark_insert (con w0)) with (mark_insert (con w)) in Ht.
  change (text (con w0)) with (text (con w)) in Ht.
  assert (written_cells (length [PyObject s]) (TagStr "red") [PyObject s]
          = tagged_cells s ["red"; "r"; "e"; "d"]) as Ec.
  { cbn [written_cells length is_none py_str]. cbn [Nat.ltb Nat.leb].
    rewrite !app_nil_r. unfold arg_tags. cbn [py_str is_none is_exception].
    by rewrite Hm. }
  rewrite Ec in Ht.
  set (t := highlighted _ _) in Ht.
  assert (text (con w') = t ++ closing_newline t) as Ht'.
  { rewrite Ew. unfold menu_setview, builtin_print. by rewrite !emit_text. }
  assert (length t = n + length (PyStr.chars s)) as El.
  { unfold t. by rewrite highlighted_length, length_app, tagged_cells_length. }
  rewrite Ht'. unfold Tk.sublist.
  apply Forall_lookup. intros i c Hc.
  apply lookup_take_Some in Hc as [Hc Hi].
  rewrite lookup_drop in Hc. rewrite lookup_app_l in Hc by lia.
  destruct (lookup_lt_is_Some_2 (tagged_cells s ["red"; "r"; "e"; "d"]) i)
    as [c0 Hc0]; [rewrite tagged_cells_length; lia|].
  assert ((text (con w) ++ tagged_cells s ["red"; "r"; "e"; "d"]) !! (n + i) = Some c0)
    as E0.
  { rewrite lookup_app_r by (unfold n; lia).
    replace (n + i - length (text (con w))) with i by (unfold n; lia). exact Hc0. }
  destruct (highlighted_keeps (mark_insert (con w)) _ _ _ E0) as (c' & Hc' & _ & Hin).
  fold t in Hc'. assert (c = c') as -> by congruence.
  rewrite (tagged_cells_lookup _ _ _ _ Hc0) in Hin.
  repeat split; apply Hin; apply list_elem_of_In; cbn [In]; auto.
Qed.

Lemma traceback_text_gets_letter_tags_witness :
  let tb := Tb "<input>" ["a.py"] in
  let s := PyStr.rstrip (PyStr.join (format_exception sample_host (Some "ValueError")
                                       (Some (PyException "bad")) (tb_next tb))) in
  let w' := exec (showtraceback sample_host
                    (ExcInfo (Some "ValueError") (Some (PyException "bad")) (Some tb)))
                 fresh_console in
  let n := length (text (con fresh_console)) in
  Forall (fun c => "red" ∈ ctags c ∧ "r" ∈ ctags c ∧ "e" ∈ ctags c ∧ "d" ∈ ctags c)
         (Tk.sublist n (n + length (PyStr.chars s)) (text (con w'))).
Proof.
  apply (traceback_text_gets_letter_tags sample_host (Some "ValueError")
           (Some (PyException "bad")) (Tb "<input>" ["a.py"]) fresh_console).
  reflexivity.
Defined.

(** ** Clearing and writing *)



(** ** The closing newline *)

Lemma lstrip_in (c : ascii) (l : list ascii) :
  In c l → PyStr.isspace c = false → In c (PyStr.lstrip_chars l).
Proof.
  intros Hin Hc. induction l as [|x l IH]; [done|].
  cbn [PyStr.lstrip_chars]. destruct (PyStr.isspace x) eqn:Ex; [|exact Hin].
  destruct Hin as [->|Hin]; [congruence|by apply IH].
Qed.

Lemma lstrip_head (x : ascii) (r l : list ascii) :
  PyStr.lstrip_chars l = x :: r → PyStr.isspace x = false ∧ In x l.
Proof.
  induction l as [|y l IH]; [done|].
  cbn [PyStr.lstrip_chars]. destruct (PyStr.isspace y) eqn:Ey.
  - intros E. destruct (IH E). split; [done|by right].
  - intros [= -> _]. split; [done|by left].
Qed.

Lemma lstrip_subset (x : ascii) (l : list ascii) :
  In x (PyStr.lstrip_chars l) → In x l.
Proof.
  induction l as [|y l IH]; [done|].
  cbn [PyStr.lstrip_chars]. destruct (PyStr.isspace y); [|done].
  intros Hin. right. by apply IH.
Qed.

Lemma truthy_of_chars (l : list ascii) :
  PyStr.truthy (PyStr.of_chars l) = match l with [] => false | _ => true end.
Proof. by destruct l. Qed.

Lemma strip_truthy (l : list ascii) :
  PyStr.truthy (PyStr.strip (PyStr.of_chars l))
  = existsb (fun c => negb (PyStr.isspace c)) l.
Proof.
  unfold PyStr.strip, PyStr.chars, PyStr.of_chars.
  rewrite String.list_ascii_of_string_of_list_ascii.
  fold (PyStr.of_chars (PyStr.rstrip_chars (PyStr.lstrip_chars l))).
  rewrite truthy_of_chars. unfold PyStr.rstrip_chars.
  destruct (existsb _ l) eqn:Ee.
  - apply existsb_exists in Ee as (c & Hin & Hc).
    apply negb_true_iff in Hc.
    assert (In c (rev (PyStr.lstrip_chars (rev (PyStr.lstrip_chars l))))) as Hr.
    { apply in_rev. rewrite rev_involutive.
      apply lstrip_in; [|done]. apply in_rev. rewrite rev_involutive.
      by apply lstrip_in. }
    by destruct (rev _).
  - destruct (PyStr.lstrip_chars (rev (PyStr.lstrip_chars l))) as [|x r] eqn:El;
      [reflexivity|].
    destruct (lstrip_head _ _ _ El) as (Hx & Hin).
    rewrite <- in_rev in Hin. apply lstrip_subset in Hin.
    assert (existsb (fun c => negb (PyStr.isspace c)) l = true) as Ht.
    { apply existsb_exists. exists x. split; [done|]. by rewrite Hx. }
    congruence.
Qed.


(** X24. [do_greet] shows the greeting after what the widget holds,
    ends the line, and finishes by showing the prompt. *)
Theorem do_greet_shows_greeting (w : World) :
  map ch (text (con (exec do_greet w)))
  = map ch (text (con w)) ++ PyStr.chars greeting ++ [PyStr.newline]
  ∧ last (trace (exec do_greet w)) = Some EvPromptCall
  ∧ buffer (con (exec do_greet w)) = buffer (con w)
  ∧ locals (con (exec do_greet w)) = locals (con w).
Proof.
  unfold do_greet. rewrite exec_bind. unfold prompt_call.
  rewrite emit_text, emit_trace, last_snoc.
  destruct (write_text [PyObject greeting] false (TagTuple []) w)
    as (Ht & (Hb & _ & Hl & _)).
  cbn zeta in Ht.
  split; [|by repeat split].
  rewrite Ht, map_app, highlighted_chars, map_app, <- app_assoc. f_equal.
  assert (map ch (written_cells (length [PyObject greeting]) (TagTuple [])
                    [PyObject greeting]) = PyStr.chars greeting) as Ew.
  { rewrite written_cells_chars. cbn. by rewrite app_nil_r. }
  rewrite Ew. f_equal.
  unfold closing_newline.
  rewrite highlighted_chars, strip_truthy, map_app, Ew, !existsb_app.
  assert (existsb (fun c => negb (PyStr.isspace c)) (PyStr.chars greeting) = true) as ->
    by (vm_compute; reflexivity).
  by rewrite orb_true_r.
Qed.
